(** * Expense categorizer: the categorization and aggregation pipeline

    A shallow embedding of [steamlit.py]: the category rules and
    [categorize], the cleaning of the uploaded table, the per-category and
    per-month sums, the budget comparison and the saving tips, followed by
    the properties of the pipeline.

    Conventions of the embedding.
    - A Python [str] is a [string]; [k in d] is [str_in k d].
    - The functions the script takes from its libraries and from the clock
      ([str.lower], the number parser behind [pd.to_numeric], the date
      parser and the timestamp range behind [pd.to_datetime],
      [datetime.today], [dt.to_period('M')], the chart calls) and the
      arithmetic of the [Amount] column are parameters of the sections
      below: every theorem holds for whatever they compute.
      [str_lower_ascii], [parse_int], [parse_iso_date],
      [nanosecond_timestamp], [month_of_day], [sample_charts] and [Z] give
      one concrete choice, used to run the definitions on examples.
    - A statement that raises ends the pass: [validate_and_clean] and
      [process] return the exception, in the order the script would meet
      it.
    - The module-level [categories] dict is an association list in
      declaration order, because [categorize] iterates [categories.items()]
      in that order. *)

From Stdlib Require Import ZArith String Ascii List Bool Sorted.
From Stdlib Require OrderedTypeEx.
From stdpp Require Import base option list strings gmap.

Set Default Proof Using "Type".

Open Scope string_scope.
Open Scope list_scope.
Open Scope Z_scope.

(** ** Strings *)

(** [keyword in description] on Python strings: [keyword] occurs as a
    contiguous substring of [description]. *)
Fixpoint str_in (keyword description : string) : bool :=
  String.prefix keyword description
  || match description with
     | EmptyString => false
     | String _ rest => str_in keyword rest
     end.

(** [str.lower] restricted to ASCII letters; every other character is kept. *)
Definition ascii_lower (c : ascii) : ascii :=
  let n := nat_of_ascii c in
  if ((65 <=? n) && (n <=? 90))%nat then ascii_of_nat (n + 32) else c.

Fixpoint str_lower_ascii (s : string) : string :=
  match s with
  | EmptyString => EmptyString
  | String c rest => String (ascii_lower c) (str_lower_ascii rest)
  end.

(** ** Category rules *)

(** The fallback of [load_categories], in the order the dict literal
    declares its keys. *)
Definition default_categories : list (string * list string) :=
  [ ("groceries", ["walmart"; "supermarket"; "grocery"; "aldi"]);
    ("rent", ["rent"; "apartment"]);
    ("utilities", ["electric"; "water"; "gas"; "internet"]);
    ("entertainment", ["netflix"; "cinema"; "movie"; "concert"]);
    ("other", []) ].

(** [load_categories]: [file] is the content of [categories.json] when the
    file can be opened, [None] when [open] raises [FileNotFoundError]. *)
Definition load_categories (file : option (list (string * list string)))
  : list (string * list string) :=
  match file with
  | Some loaded => loaded
  | None => default_categories
  end.

(** ** Categorizer *)

Section Categorizer.
Variable lower : string -> string.
Variable categories : list (string * list string).

(** [any(keyword in description for keyword in keywords)] *)
Definition any_keyword_in (keywords : list string) (description : string) : bool :=
  existsb (fun keyword => str_in keyword description) keywords.

(** The [for category, keywords in categories.items()] loop with its early
    [return category], and the [return 'other'] after the loop. *)
Fixpoint first_match (items : list (string * list string)) (description : string)
  : string :=
  match items with
  | [] => "other"
  | (category, keywords) :: rest =>
      if any_keyword_in keywords description then category
      else first_match rest description
  end.

Definition categorize (description : string) : string :=
  let description := lower description in
  first_match categories description.
End Categorizer.

(** ** Saving tips *)

Definition tips : gmap string string :=
  <["groceries" := "Consider buying in bulk, using coupons, and shopping at discount stores."]>
  (<["rent" := "Try to negotiate a lower rent or consider moving to a more affordable place."]>
  (<["utilities" := "Turn off unused electronics, and use energy-efficient appliances."]>
  (<["entertainment" := "Cut down on subscriptions and find free or low-cost entertainment options."]>
  (<["other" := "Analyze discretionary expenses and reduce non-essential spending."]> ∅)))).

(** [tips.get(category, "No tips available.")] *)
Definition saving_tips (category : string) : string :=
  default "No tips available." (tips !! category).

(** ** The uploaded table *)

(** A cell of the [Description] column: missing ([NaN]), text, or a value
    that is no text (a column of digits or of [True]/[False] is read by
    [read_csv] as numbers or booleans), given by its printed form. *)
Inductive description_cell : Type :=
| DNaN
| DText (s : string)
| DOther (printed : string).

(** A cell of the [Amount] column: missing ([NaN]), a number, or text that
    is not yet a number. *)
Inductive amount_cell (amount : Type) : Type :=
| ANaN
| ANum (a : amount)
| AStr (s : string).
Arguments ANaN {amount}.
Arguments ANum {amount} a.
Arguments AStr {amount} s.

(** A cell of the [Date] column: missing ([NaN], [NaT]), a timestamp, given
    by its day number (days since 1970-01-01), or what [read_csv] delivers,
    given by its text. *)
Inductive date_cell : Type :=
| DateNaT
| DateStamp (day : Z)
| DateText (s : string).

(** One row of the frame.  [Month] is the ordinal of the monthly period
    (months since 1970-01), [Others] holds the cells of every other column
    of the upload, by label. *)
Record row (amount : Type) : Type := Build_row {
  Description : description_cell;
  Amount : amount_cell amount;
  Category : option string;
  Date_cell : date_cell;
  Month : option Z;
  Others : list (string * option string)
}.
Arguments Build_row {amount}.
Arguments Description {amount}.
Arguments Amount {amount}.
Arguments Category {amount}.
Arguments Date_cell {amount}.
Arguments Month {amount}.
Arguments Others {amount}.

(** The timestamp of a [Date] cell that holds one. *)
Definition stamp (c : date_cell) : option Z :=
  match c with
  | DateStamp day => Some day
  | _ => None
  end.

Definition Date {amount : Type} (r : row amount) : option Z :=
  stamp (Date_cell r).

(** A row whose description is text or missing and whose date is a
    timestamp or missing, without other columns. *)
Definition mk_row {amount : Type} (description : option string)
    (a : amount_cell amount) (category : option string) (date : option Z)
    (month : option Z) : row amount :=
  Build_row
    match description with Some s => DText s | None => DNaN end
    a category
    match date with Some day => DateStamp day | None => DateNaT end
    month [].

(** The frame: its column labels and its rows in index order.  The cells of
    a row under a label that is not in [columns] are not part of the frame. *)
Record DataFrame (amount : Type) : Type := mk_df {
  columns : list string;
  rows : list (row amount)
}.
Arguments mk_df {amount}.
Arguments columns {amount}.
Arguments rows {amount}.

Inductive ValidationError : Type := MissingColumnError.

(** The exceptions that end the pass, by their class: the three that the
    cleaning raises ([ValueError] stands for its subclasses that
    [pd.to_datetime] raises as well), and any other class, by its name, for
    the chart calls. *)
Inductive exception : Type :=
| AttributeError
| OverflowError
| ValueError
| OtherError (name : string).

(** The outcome of a step: its value, the failed column check, or the
    exception that ended the pass. *)
Inductive result (T : Type) : Type :=
| Ok (v : T)
| Err (e : ValidationError)
| Raised (x : exception).
Arguments Ok {T} v.
Arguments Err {T} e.
Arguments Raised {T} x.

Definition bind {A B : Type} (m : result A) (k : A -> result B) : result B :=
  match m with
  | Ok v => k v
  | Err e => Err e
  | Raised x => Raised x
  end.

Notation "x <- m ;; k" := (bind m (fun x => k))
  (at level 100, m at next level, right associativity).

(** [f] on the elements of a list in order, with their positions from [i]
    on; the first exception ends it. *)
Fixpoint itraverse_from {A B : Type} (f : nat -> A -> result B) (i : nat)
    (l : list A) : result (list B) :=
  match l with
  | [] => Ok []
  | x :: rest =>
      y <- f i x ;;
      ys <- itraverse_from f (S i) rest ;;
      Ok (y :: ys)
  end.

Definition itraverse {A B : Type} (f : nat -> A -> result B) (l : list A)
  : result (list B) :=
  itraverse_from f 0 l.

Definition traverse {A B : Type} (f : A -> result B) (l : list A)
  : result (list B) :=
  itraverse (fun _ => f) l.

(** [datetime.min] and [datetime.max] as day numbers: 0001-01-01 and
    9999-12-31. *)
Definition datetime_min_day : Z := -719162.
Definition datetime_max_day : Z := 2932896.

(** The most days that a [timedelta] holds. *)
Definition timedelta_max_days : Z := 999999999.

(** [timedelta(days=i)] is built and the datetime that is [i] days before
    [day] is a date of the years 1 to 9999. *)
Definition days_back_ok (day : Z) (i : nat) : bool :=
  (Z.of_nat i <=? timedelta_max_days)
  && (datetime_min_day <=? day - Z.of_nat i)
  && (day - Z.of_nat i <=? datetime_max_day).

(** [datetime - timedelta(days=i)] on the day of the datetime; both the
    [timedelta] and the subtraction raise [OverflowError] out of range. *)
Definition minus_days (day : Z) (i : nat) : result Z :=
  if days_back_ok day i then Ok (day - Z.of_nat i) else Raised OverflowError.

(** The values of the four [st.number_input] widgets (integers, not below
    [min_value=0]). *)
Record budgets : Type := mk_budgets {
  budget_groceries : Z;
  budget_rent : Z;
  budget_utilities : Z;
  budget_entertainment : Z
}.

(** ** groupby *)

Section GroupBy.
Context {K R : Type}.
Variable K_eqb K_ltb : K -> K -> bool.

(** Put [r] in the group of [k]; groups are kept in ascending key order
    and each group keeps its rows in frame order. *)
Fixpoint group_insert (k : K) (r : R) (groups : list (K * list R))
  : list (K * list R) :=
  match groups with
  | [] => [(k, [r])]
  | (k', g) :: rest =>
      if K_eqb k k' then (k', g ++ [r]) :: rest
      else if K_ltb k k' then (k, [r]) :: groups
      else (k', g) :: group_insert k r rest
  end.

(** [df.groupby(key)]: rows whose key is missing belong to no group. *)
Definition groupby (key : R -> option K) (rs : list R) : list (K * list R) :=
  fold_left
    (fun groups r =>
       match key r with
       | Some k => group_insert k r groups
       | None => groups
       end)
    rs [].
End GroupBy.

(** ** The processing pass *)

Section Pipeline.
Context {amount : Type}.
Variable amount_zero : amount.
Variable amount_add : amount -> amount -> amount.
Variable lower : string -> string.
(** The parser behind [pd.to_numeric]: [None] when the text is no number. *)
Variable parse_number : string -> option amount.
(** [today i] is the day number of the [i]-th evaluation of
    [datetime.today()] in the pass. *)
Variable today : nat -> Z.
(** [dt.to_period('M')] on a day number. *)
Variable to_period_M : Z -> Z.
Variable categories : list (string * list string).
(** The parser behind [pd.to_datetime]: the day of the date that the text
    of a cell stands for, read with the column it is in, [None] when
    [pd.to_datetime] raises on it. *)
Variable parse_date : list date_cell -> string -> option Z.
(** Whether pandas holds the day as a timestamp; [pd.to_datetime] raises on
    a date out of this range. *)
Variable timestamp_ok : Z -> bool.

Definition has_column (label : string) (df : DataFrame amount) : bool :=
  existsb (String.eqb label) (columns df).

(** The labels after [df[label] = ...]: a new label goes last. *)
Definition with_column (label : string) (labels : list string) : list string :=
  if existsb (String.eqb label) labels then labels else labels ++ [label].

Definition isna_description (c : description_cell) : bool :=
  match c with
  | DNaN => true
  | _ => false
  end.

Definition isna_amount (c : amount_cell amount) : bool :=
  match c with
  | ANaN => true
  | _ => false
  end.

(** [pd.to_numeric(_, errors='coerce')] on one cell. *)
Definition to_numeric (c : amount_cell amount) : amount_cell amount :=
  match c with
  | ANaN => ANaN
  | ANum a => ANum a
  | AStr s =>
      match parse_number s with
      | Some a => ANum a
      | None => ANaN
      end
  end.

(** No category of the rule set has a keyword. *)
Definition no_keyword (items : list (string * list string)) : bool :=
  forallb (fun '(_, keywords) =>
             match keywords with
             | [] => true
             | _ :: _ => false
             end)
          items.

(** [categorize] on one cell, as [apply] calls it.  [description.lower()] is
    evaluated for every keyword that is tried, and only text has [lower()]:
    on another cell the call raises at the first keyword, and returns
    "other" when no category has a keyword. *)
Definition categorize_cell (c : description_cell) : result string :=
  match c with
  | DText description => Ok (categorize lower categories description)
  | DNaN | DOther _ =>
      if no_keyword categories then Ok "other" else Raised AttributeError
  end.

(** [pd.to_datetime] on one cell of [column]. *)
Definition to_datetime (column : list date_cell) (c : date_cell)
  : result date_cell :=
  match c with
  | DateNaT => Ok DateNaT
  | DateStamp day =>
      if timestamp_ok day then Ok (DateStamp day) else Raised ValueError
  | DateText s =>
      match parse_date column s with
      | Some day =>
          if timestamp_ok day then Ok (DateStamp day) else Raised ValueError
      | None => Raised ValueError
      end
  end.

Definition set_Amount (c : amount_cell amount) (r : row amount) : row amount :=
  Build_row (Description r) c (Category r) (Date_cell r) (Month r) (Others r).
Definition set_Category (c : option string) (r : row amount) : row amount :=
  Build_row (Description r) (Amount r) c (Date_cell r) (Month r) (Others r).
Definition set_Date (c : date_cell) (r : row amount) : row amount :=
  Build_row (Description r) (Amount r) (Category r) c (Month r) (Others r).
Definition set_Month (m : option Z) (r : row amount) : row amount :=
  Build_row (Description r) (Amount r) (Category r) (Date_cell r) m (Others r).

(** [df.dropna(subset=['Description', 'Amount'], inplace=True)] *)
Definition dropna_Description_Amount (df : DataFrame amount) : DataFrame amount :=
  mk_df (columns df)
        (List.filter
           (fun r => negb (isna_description (Description r))
                     && negb (isna_amount (Amount r)))
           (rows df)).

(** [df['Amount'] = pd.to_numeric(df['Amount'], errors='coerce')] *)
Definition coerce_Amount (df : DataFrame amount) : DataFrame amount :=
  mk_df (with_column "Amount" (columns df))
        (map (fun r => set_Amount (to_numeric (Amount r)) r) (rows df)).

(** [df.dropna(subset=['Amount'], inplace=True)] *)
Definition dropna_Amount (df : DataFrame amount) : DataFrame amount :=
  mk_df (columns df)
        (List.filter (fun r => negb (isna_amount (Amount r))) (rows df)).

(** [df['Category'] = df['Description'].apply(categorize)]: the column is
    assigned when [categorize] has returned for every row. *)
Definition assign_Category (df : DataFrame amount) : result (DataFrame amount) :=
  rs <- traverse
          (fun r =>
             category <- categorize_cell (Description r) ;;
             Ok (set_Category (Some category) r))
          (rows df) ;;
  Ok (mk_df (with_column "Category" (columns df)) rs).

(** [if 'Date' not in df.columns:
       df['Date'] = [datetime.today() - timedelta(days=i) for i in range(len(df))]] *)
Definition assign_missing_Date (df : DataFrame amount)
  : result (DataFrame amount) :=
  if negb (has_column "Date" df)
  then
    rs <- itraverse
            (fun i r =>
               day <- minus_days (today i) i ;;
               Ok (set_Date (DateStamp day) r))
            (rows df) ;;
    Ok (mk_df (with_column "Date" (columns df)) rs)
  else Ok df.

(** [df['Date'] = pd.to_datetime(df['Date'])] *)
Definition to_datetime_Date (df : DataFrame amount) : result (DataFrame amount) :=
  let column := map Date_cell (rows df) in
  rs <- traverse
          (fun r =>
             c <- to_datetime column (Date_cell r) ;;
             Ok (set_Date c r))
          (rows df) ;;
  Ok (mk_df (with_column "Date" (columns df)) rs).

(** [df['Month'] = df['Date'].dt.to_period('M')] *)
Definition assign_Month (df : DataFrame amount) : DataFrame amount :=
  mk_df (with_column "Month" (columns df))
        (map (fun r => set_Month (to_period_M <$> Date r) r) (rows df)).

(** The column check and, in its [else] branch, the cleaning of the frame. *)
Definition validate_and_clean (df : DataFrame amount) : result (DataFrame amount) :=
  if negb (has_column "Description" df) || negb (has_column "Amount" df)
  then Err MissingColumnError
  else
    let df := dropna_Description_Amount df in
    let df := coerce_Amount df in
    let df := dropna_Amount df in
    df <- assign_Category df ;;
    df <- assign_missing_Date df ;;
    df <- to_datetime_Date df ;;
    Ok (assign_Month df).

(** *** Views of the cleaning used in the statements *)

(** The rows that reach [df['Category'] = ...]: the description is not
    missing and the amount is a number after [pd.to_numeric]. *)
Definition kept (r : row amount) : bool :=
  match Description r, to_numeric (Amount r) with
  | DNaN, _ => false
  | _, ANum _ => true
  | _, _ => false
  end.

(** The rows after the second [dropna]. *)
Definition numeric_rows (rs : list (row amount)) : list (row amount) :=
  map (fun r => set_Amount (to_numeric (Amount r)) r) (List.filter kept rs).

(** The rows after the [if 'Date' not in df.columns] step. *)
Definition dated (date_missing : bool) (rs : list (row amount))
  : result (list (row amount)) :=
  if date_missing
  then itraverse
         (fun i r =>
            day <- minus_days (today i) i ;;
            Ok (set_Date (DateStamp day) r))
         rs
  else Ok rs.

(** The rows and the labels of the cleaned frame. *)
Definition clean_rows (date_missing : bool) (rs : list (row amount))
  : result (list (row amount)) :=
  rs <- traverse
          (fun r =>
             category <- categorize_cell (Description r) ;;
             Ok (set_Category (Some category) r))
          (numeric_rows rs) ;;
  rs <- dated date_missing rs ;;
  rs <- traverse
          (fun r =>
             c <- to_datetime (map Date_cell rs) (Date_cell r) ;;
             Ok (set_Date c r))
          rs ;;
  Ok (map (fun r => set_Month (to_period_M <$> Date r) r) rs).

Definition clean_columns (labels : list string) : list string :=
  with_column "Month" (with_column "Date" (with_column "Category" labels)).

(** What holds of every row of a cleaned frame. *)
Definition cleaned (r : row amount) : Prop :=
  (Description r <> DNaN
   /\ exists c, categorize_cell (Description r) = Ok c /\ Category r = Some c)
  /\ (exists a, Amount r = ANum a)
  /\ (Date_cell r = DateNaT
      \/ exists day, Date_cell r = DateStamp day /\ timestamp_ok day = true)
  /\ Month r = to_period_M <$> Date r.


(** [categorize] returns on the description of a row. *)
Definition categorize_returns (r : row amount) : Prop :=
  exists c, categorize_cell (Description r) = Ok c.

(** The date steps return on the rows [rs] that are left after the drops:
    without a [Date] column every day counted back is a date that
    [datetime] and pandas hold, with one [pd.to_datetime] returns on every
    cell. *)
Definition dates_return (date_missing : bool) (rs : list (row amount)) : Prop :=
  if date_missing
  then forall i, (i < length rs)%nat ->
                 days_back_ok (today i) i = true
                 /\ timestamp_ok (today i - Z.of_nat i) = true
  else Forall (fun r => exists c,
                   to_datetime (map Date_cell rs) (Date_cell r) = Ok c) rs.

(** The number in a cell of a numeric column. *)
Definition numeric (c : amount_cell amount) : option amount :=
  match c with
  | ANum a => Some a
  | _ => None
  end.

Definition sum_amounts (l : list amount) : amount :=
  fold_left amount_add l amount_zero.

(** [Series.sum()] of a column of amounts: missing cells are skipped. *)
Definition Series_sum (cells : list (amount_cell amount)) : amount :=
  sum_amounts (omap numeric cells).

(** [df.groupby(key)['Amount'].sum().reset_index()]: one row per group, with
    the key and the sum of the amounts of the group. *)
Definition groupby_Amount_sum {K : Type} (K_eqb K_ltb : K -> K -> bool)
    (key : row amount -> option K) (df : DataFrame amount) : list (K * amount) :=
  map (fun '(k, g) => (k, Series_sum (map Amount g)))
      (groupby K_eqb K_ltb key (rows df)).

(** The rows that [groupby(key)] puts in a group. *)
Definition has_key {K : Type} (key : row amount -> option K) (r : row amount) : bool :=
  match key r with
  | Some _ => true
  | None => false
  end.

(** The sum of the sums of the groups. *)
Definition groups_total {K : Type} (groups : list (K * list (row amount))) : amount :=
  sum_amounts (map (fun '(_, g) => Series_sum (map Amount g)) groups).

(** [summary = df.groupby('Category')['Amount'].sum().reset_index()] *)
Definition summary (df : DataFrame amount) : list (string * amount) :=
  groupby_Amount_sum String.eqb String.ltb Category df.

(** [monthly_spending = df.groupby('Month')['Amount'].sum().reset_index()] *)
Definition monthly_spending (df : DataFrame amount) : list (Z * amount) :=
  groupby_Amount_sum Z.eqb Z.ltb Month df.

(** [summary['Amount'].sum()] *)
Definition total_spent (df : DataFrame amount) : amount :=
  sum_amounts (map snd (summary df)).

(** [df[df['Category'] == category]['Amount'].sum()] *)
Definition actual (df : DataFrame amount) (category : string) : amount :=
  Series_sum
    (map Amount
         (List.filter
            (fun r => match Category r with
                      | Some c => String.eqb c category
                      | None => false
                      end)
            (rows df))).

(** The [budget_data] dict: three columns of the same length. *)
Record budget_columns : Type := mk_budget_columns {
  bd_Category : list string;
  bd_Budget : list Z;
  bd_Actual : list amount
}.

Definition budget_data (df : DataFrame amount) (b : budgets) : budget_columns :=
  mk_budget_columns
    ["groceries"; "rent"; "utilities"; "entertainment"]
    [budget_groceries b; budget_rent b; budget_utilities b; budget_entertainment b]
    [actual df "groceries"; actual df "rent";
     actual df "utilities"; actual df "entertainment"].

(** One row of [budget_df]. *)
Record budget_row : Type := mk_budget_row {
  br_Category : string;
  br_Budget : Z;
  br_Actual : amount
}.

(** [pd.DataFrame(budget_data)]: the rows of the three columns. *)
Definition budget_df (d : budget_columns) : list budget_row :=
  zip_with (fun cb a => mk_budget_row (fst cb) (snd cb) a)
           (zip (bd_Category d) (bd_Budget d)) (bd_Actual d).

Definition budgetComparison (df : DataFrame amount) (b : budgets) : list budget_row :=
  budget_df (budget_data df b).

(** What the page shows after the upload. *)
Record report : Type := mk_report {
  shown_df : DataFrame amount;
  shown_summary : list (string * amount);
  shown_tips : list (string * string);
  shown_monthly : list (Z * amount);
  shown_budget : list budget_row;
  shown_total : amount
}.

(** The page after the pass: the error message of the column check, the
    tables of a pass that ran to its end, or the exception that ended it
    (what the script had written before the exception stays on the page and
    is not recorded here). *)
Inductive page : Type :=
| ErrorMessage (msg : string)
| Results (r : report)
| Traceback (x : exception).

(** The chart calls, each on the table it draws: [None] when the call
    returns, the exception when it raises. *)
Record charts : Type := mk_charts {
  barplot : list (string * amount) -> option exception;
  pie : list (string * amount) -> option exception;
  trend_plot : list (Z * amount) -> option exception;
  budget_bars : list budget_row -> option exception
}.

Variable draw : charts.

(** The body of [if uploaded_file:], from the column check on. *)
Definition process (df : DataFrame amount) (b : budgets) : page :=
  match validate_and_clean df with
  | Err MissingColumnError =>
      ErrorMessage "CSV must contain 'Description' and 'Amount' columns."
  | Raised x => Traceback x
  | Ok df =>
      let summary := summary df in
      let tips := map (fun '(category, _) => (category, saving_tips category))
                      summary in
      match barplot draw summary with
      | Some x => Traceback x
      | None =>
      match pie draw summary with
      | Some x => Traceback x
      | None =>
      let monthly_spending := monthly_spending df in
      match trend_plot draw monthly_spending with
      | Some x => Traceback x
      | None =>
      let budget_df := budgetComparison df b in
      match budget_bars draw budget_df with
      | Some x => Traceback x
      | None =>
      Results
        (mk_report df summary tips monthly_spending budget_df (total_spent df))
      end end end end
  end.
End Pipeline.

(** ** A concrete choice of the parameters *)

Fixpoint parse_digits (s : string) (acc : Z) : option Z :=
  match s with
  | EmptyString => Some acc
  | String c rest =>
      let n := Z.of_nat (nat_of_ascii c) in
      if (48 <=? n) && (n <=? 57) then parse_digits rest (10 * acc + (n - 48))
      else None
  end.

(** Decimal integer literals with an optional minus sign. *)
Definition parse_int (s : string) : option Z :=
  match s with
  | EmptyString => None
  | String "-" (String c rest) => Z.opp <$> parse_digits (String c rest) 0
  | _ => parse_digits s 0
  end.

(** Month ordinal of a day number (proleptic Gregorian calendar). *)
Definition month_of_day (day : Z) : Z :=
  let z := day + 719468 in
  let era := z / 146097 in
  let doe := z - era * 146097 in
  let yoe := (doe - doe / 1460 + doe / 36524 - doe / 146096) / 365 in
  let doy := doe - (365 * yoe + yoe / 4 - yoe / 100) in
  let mp := (5 * doy + 2) / 153 in
  let m := if mp <? 10 then mp + 3 else mp - 9 in
  let y := yoe + era * 400 + (if m <=? 2 then 1 else 0) in
  (y - 1970) * 12 + (m - 1).

(** Day number of a date of the proleptic Gregorian calendar. *)
Definition days_from_civil (y m d : Z) : Z :=
  let y' := if m <=? 2 then y - 1 else y in
  let era := y' / 400 in
  let yoe := y' - era * 400 in
  let mp := if 2 <? m then m - 3 else m + 9 in
  let doy := (153 * mp + 2) / 5 + d - 1 in
  let doe := yoe * 365 + yoe / 4 - yoe / 100 + doy in
  era * 146097 + doe - 719468.

(** Dates written [YYYY-MM-DD], whatever the column. *)
Definition parse_iso_date (column : list date_cell) (s : string) : option Z :=
  match String.get 4 s, String.get 7 s, String.length s with
  | Some "-"%char, Some "-"%char, 10%nat =>
      match parse_digits (String.substring 0 4 s) 0,
            parse_digits (String.substring 5 2 s) 0,
            parse_digits (String.substring 8 2 s) 0 with
      | Some y, Some m, Some d =>
          if (1 <=? m) && (m <=? 12) && (1 <=? d) && (d <=? 31)
          then Some (days_from_civil y m d)
          else None
      | _, _, _ => None
      end
  | _, _, _ => None
  end.

(** The days of the timestamps with nanosecond resolution, 1677-09-22 to
    2262-04-11. *)
Definition nanosecond_timestamp (day : Z) : bool :=
  (-106751 <=? day) && (day <=? 106751).

(** Charts that are drawn for every table, except that the pie refuses an
    empty table, a negative amount and amounts that add up to nothing. *)
Definition sample_charts : charts (amount:=Z) :=
  mk_charts
    (fun _ => None)
    (fun summary =>
       if existsb (fun cv => snd cv <? 0) summary
          || (fold_left Z.add (map snd summary) 0 <=? 0)
       then Some ValueError else None)
    (fun _ => None)
    (fun _ => None).

(** ** Sample uploads *)

(** 2026-11-03 at every evaluation of [datetime.today()]. *)
Definition sample_today : nat -> Z := fun _ => 20760.

(** A row as [read_csv] delivers it, with a description that is text. *)
Definition upload_row (description : string) (a : amount_cell Z)
    (date : option string) : row Z :=
  Build_row (DText description) a None
            match date with Some s => DateText s | None => DateNaT end
            None [].

Definition sample_upload : DataFrame Z :=
  mk_df ["Description"; "Amount"]
        [ upload_row "Walmart trip" (AStr "54") None;
          upload_row "Netflix" (AStr "16") None;
          upload_row "Cash" (AStr "abc") None ].


(** A [Date] column with one empty cell. *)
Definition upload_missing_date : DataFrame Z :=
  mk_df ["Description"; "Amount"; "Date"]
        [ upload_row "Walmart trip" (ANum 54) (Some "2026-11-03");
          upload_row "Netflix" (ANum 16) None ].

(** A [Date] column with a cell that is no date. *)
Definition upload_bad_date : DataFrame Z :=
  mk_df ["Description"; "Amount"; "Date"]
        [ upload_row "Netflix" (ANum 16) (Some "soon") ].

Definition upload_no_amount : DataFrame Z :=
  mk_df ["Description"; "Date"] [ upload_row "Netflix" ANaN (Some "2026-11-03") ].

(** A [Description] column of digits, read as numbers. *)
Definition upload_numeric_description : DataFrame Z :=
  mk_df ["Description"; "Amount"]
        [ Build_row (DOther "12345") (ANum 5) None DateNaT None [] ].

(** A cleaned frame without utilities and entertainment rows. *)
Definition sample_cleaned : DataFrame Z :=
  mk_df ["Description"; "Amount"; "Category"; "Date"; "Month"]
        [ mk_row (Some "Walmart trip") (ANum 54) (Some "groceries")
                 (Some 20760) (Some 682);
          mk_row (Some "Tip") (ANum 5) (Some "other") (Some 20759) (Some 682) ].

(** The default values of the four [st.number_input] widgets. *)
Definition default_budgets : budgets := mk_budgets 200 1000 150 100.

Definition clean_Z : DataFrame Z -> result (DataFrame Z) :=
  validate_and_clean str_lower_ascii parse_int sample_today month_of_day
                     default_categories parse_iso_date nanosecond_timestamp.

Definition process_Z : DataFrame Z -> budgets -> page :=
  process 0 Z.add str_lower_ascii parse_int sample_today month_of_day
          default_categories parse_iso_date nanosecond_timestamp sample_charts.

(** ** Further views used in the statements *)

(** An ASCII capital letter. *)
Definition is_ascii_upper (c : ascii) : bool :=
  let n := nat_of_ascii c in
  ((65 <=? n) && (n <=? 90))%nat.

(** Some character of [s] satisfies [p]. *)
Fixpoint str_exists (p : ascii -> bool) (s : string) : bool :=
  match s with
  | EmptyString => false
  | String c rest => p c || str_exists p rest
  end.

(** The rows of the group of [k], none when [k] has no group. *)
Fixpoint group_of {K R : Type} (K_eqb : K -> K -> bool) (k : K)
    (groups : list (K * list R)) : list R :=
  match groups with
  | [] => []
  | (k', g) :: rest => if K_eqb k k' then g else group_of K_eqb k rest
  end.

(** The test of [df[key] == k] on one row. *)
Definition key_is {K R : Type} (K_eqb : K -> K -> bool) (key : R -> option K)
    (k : K) (r : R) : bool :=
  match key r with
  | Some k' => K_eqb k' k
  | None => false
  end.

(** Two rows with the same cells in every uploaded column other than
    [Category] and [Month]. *)
Definition same_upload {amount : Type} (r r' : row amount) : Prop :=
  Description r = Description r' /\ Amount r = Amount r'
  /\ Date_cell r = Date_cell r' /\ Others r = Others r'.

(** Two outcomes of the same kind, with related values when both are
    returned. *)
Definition result_rel {A B : Type} (R : A -> B -> Prop)
    (x : result A) (y : result B) : Prop :=
  match x, y with
  | Ok a, Ok b => R a b
  | Err e, Err e' => e = e'
  | Raised e, Raised e' => e = e'
  | _, _ => False
  end.



(** ** Substrings *)

Lemma append_cons (c : ascii) (s t : string) :
  String c s +:+ t = String c (s +:+ t).
Proof. reflexivity. Qed.

Lemma prefix_append (k d : string) :
  String.prefix k d = true <-> exists post, d = k +:+ post.
Proof.
  revert d. induction k as [|c k IH]; intros d; simpl.
  - destruct d; split; eauto.
  - destruct d as [|c' d]; simpl.
    + split; [discriminate | intros [post H]; rewrite append_cons in H; discriminate].
    + destruct (Ascii.ascii_dec c c') as [->|Hne].
      * rewrite IH. split; intros [post H]; exists post;
          rewrite append_cons in *; congruence.
      * split; [discriminate | intros [post H]; rewrite append_cons in H; congruence].
Qed.

Lemma str_in_nil (k : string) : str_in k "" = String.prefix k "" || false.
Proof. reflexivity. Qed.

Lemma str_in_cons (k : string) (c : ascii) (d : string) :
  str_in k (String c d) = String.prefix k (String c d) || str_in k d.
Proof. reflexivity. Qed.

(** [str_in] is the substring test. *)
Lemma str_in_spec (k d : string) :
  str_in k d = true <-> exists pre post, d = pre +:+ k +:+ post.
Proof.
  induction d as [|c d IH].
  - rewrite str_in_nil, orb_false_r, prefix_append. split.
    + intros [post H]. exists "", post. exact H.
    + intros [pre [post H]]. destruct pre; [eauto | discriminate].
  - rewrite str_in_cons, orb_true_iff, prefix_append, IH. split.
    + intros [[post H] | [pre [post H]]].
      * exists "", post. exact H.
      * exists (String c pre), post. rewrite append_cons. congruence.
    + intros [pre [post H]]. destruct pre as [|c' pre].
      * left. eauto.
      * right. exists pre, post. rewrite append_cons in H. congruence.
Qed.

Lemma any_keyword_in_true (keywords : list string) (description : string) :
  any_keyword_in keywords description = true <->
  exists keyword, keyword ∈ keywords /\ str_in keyword description = true.
Proof.
  unfold any_keyword_in. rewrite existsb_exists.
  split; intros [k [Hin Hk]]; exists k; split; auto; by apply list_elem_of_In.
Qed.

Lemma any_keyword_in_false (keywords : list string) (description : string) :
  any_keyword_in keywords description = false <->
  forall keyword, keyword ∈ keywords -> str_in keyword description = false.
Proof.
  rewrite <- not_true_iff_false, any_keyword_in_true. split.
  - intros H k Hin. apply not_true_iff_false. intros Hk. apply H. eauto.
  - intros H [k [Hin Hk]]. rewrite (H k Hin) in Hk. discriminate.
Qed.

Lemma first_match_skip (earlier items : list (string * list string)) (d : string) :
  (forall c kws k, (c, kws) ∈ earlier -> k ∈ kws -> str_in k d = false) ->
  first_match (earlier ++ items) d = first_match items d.
Proof.
  induction earlier as [|[c kws] earlier IH]; intros H; simpl; [reflexivity|].
  assert (any_keyword_in kws d = false) as ->.
  { apply any_keyword_in_false. intros k Hk. apply (H c kws k); [left | exact Hk]. }
  apply IH. intros c' kws' k' Hin. apply (H c' kws' k'). by right.
Qed.

Lemma first_match_range (items : list (string * list string)) (d : string) :
  first_match items d ∈ map fst items ++ ["other"].
Proof.
  induction items as [|[c kws] items IH]; simpl.
  - left.
  - destruct (any_keyword_in kws d); [left | by right].
Qed.

(** ** Lists and column labels *)

Lemma filter_all {A : Type} (p : A -> bool) (l : list A) :
  Forall (fun x => p x = true) l -> List.filter p l = l.
Proof.
  induction 1 as [|x l Hx _ IH]; simpl; [reflexivity|].
  by rewrite Hx, IH.
Qed.

Lemma map_fixed {A : Type} (f : A -> A) (l : list A) :
  Forall (fun x => f x = x) l -> map f l = l.
Proof.
  induction 1 as [|x l Hx _ IH]; simpl; [reflexivity|].
  by rewrite Hx, IH.
Qed.

Lemma lookup_map {A B : Type} (f : A -> B) (l : list A) (i : nat) :
  map f l !! i = f <$> l !! i.
Proof. exact (list_lookup_fmap f l i). Qed.

Lemma Forall_map_iff {A B : Type} (P : B -> Prop) (f : A -> B) (l : list A) :
  Forall P (map f l) <-> Forall (fun x => P (f x)) l.
Proof. apply Forall_fmap. Qed.

Lemma existsb_eqb_elem_of (label : string) (labels : list string) :
  existsb (String.eqb label) labels = true <-> label ∈ labels.
Proof.
  rewrite existsb_exists, list_elem_of_In. split.
  - intros [x [Hin Hx]]. apply String.eqb_eq in Hx. by subst.
  - intros Hin. exists label. split; [exact Hin | apply String.eqb_refl].
Qed.

Lemma elem_of_with_column (x label : string) (labels : list string) :
  x ∈ with_column label labels <-> x ∈ labels \/ x = label.
Proof.
  unfold with_column.
  destruct (existsb (String.eqb label) labels) eqn:E.
  - apply existsb_eqb_elem_of in E. split; [by left | by intros [?| ->]].
  - rewrite elem_of_app, list_elem_of_singleton. reflexivity.
Qed.

Lemma with_column_present (label : string) (labels : list string) :
  label ∈ labels -> with_column label labels = labels.
Proof.
  intros H. apply existsb_eqb_elem_of in H. unfold with_column. by rewrite H.
Qed.

Lemma elem_of_clean_columns (x : string) (labels : list string) :
  x ∈ clean_columns labels <->
  x ∈ labels \/ x = "Category" \/ x = "Date" \/ x = "Month".
Proof.
  unfold clean_columns. rewrite !elem_of_with_column. tauto.
Qed.

Lemma clean_columns_fixed (labels : list string) :
  clean_columns (clean_columns labels) = clean_columns labels.
Proof.
  unfold clean_columns at 1.
  rewrite (with_column_present "Category").
  2:{ apply elem_of_clean_columns. tauto. }
  rewrite (with_column_present "Date").
  2:{ apply elem_of_clean_columns. tauto. }
  apply with_column_present, elem_of_clean_columns. tauto.
Qed.

(** ** Steps that may raise *)

Lemma bind_Ok_inv {A B : Type} (m : result A) (k : A -> result B) (y : B) :
  bind m k = Ok y -> exists x, m = Ok x /\ k x = Ok y.
Proof. destruct m as [x| |]; simpl; [eauto | discriminate..]. Qed.

Lemma itraverse_from_Ok_inv {A B : Type} (f : nat -> A -> result B) (i : nat)
    (l : list A) (l' : list B) :
  itraverse_from f i l = Ok l' ->
  length l' = length l
  /\ forall j x, l !! j = Some x ->
                 exists y, l' !! j = Some y /\ f (i + j)%nat x = Ok y.
Proof.
  revert i l'. induction l as [|x l IH]; intros i l'; simpl.
  - intros [= <-]. split; [reflexivity|]. intros j x Hj. discriminate Hj.
  - intros H. apply bind_Ok_inv in H as (y & Hy & H).
    apply bind_Ok_inv in H as (ys & Hys & [= <-]).
    destruct (IH _ _ Hys) as [Hlen Hrest]. split; [simpl; by rewrite Hlen|].
    intros [|j] x' Hj; simpl in Hj.
    + injection Hj as <-. exists y. by rewrite Nat.add_0_r.
    + destruct (Hrest j x' Hj) as (y' & Hy' & Hf). exists y'.
      split; [exact Hy'|]. by replace (i + S j)%nat with (S i + j)%nat by lia.
Qed.

Lemma itraverse_from_Ok_intro {A B : Type} (f : nat -> A -> result B)
    (g : nat -> A -> B) (i : nat) (l : list A) :
  (forall j x, l !! j = Some x -> f (i + j)%nat x = Ok (g (i + j)%nat x)) ->
  itraverse_from f i l = Ok (imap (fun j => g (i + j)%nat) l).
Proof.
  revert i. induction l as [|x l IH]; intros i H; [reflexivity|].
  cbn [itraverse_from imap].
  pose proof (H 0%nat x eq_refl) as H0. rewrite Nat.add_0_r in H0.
  rewrite H0. cbn [bind]. rewrite (IH (S i)).
  - cbn [bind]. rewrite Nat.add_0_r. do 2 f_equal. apply imap_ext.
    intros j y _. simpl. by replace (i + S j)%nat with (S i + j)%nat by lia.
  - intros j y Hj. replace (S i + j)%nat with (i + S j)%nat by lia.
    by apply (H (S j)).
Qed.

Lemma traverse_Ok_inv {A B : Type} (f : A -> result B) (l : list A) (l' : list B) :
  traverse f l = Ok l' ->
  length l' = length l
  /\ forall j x, l !! j = Some x -> exists y, l' !! j = Some y /\ f x = Ok y.
Proof. apply itraverse_from_Ok_inv. Qed.

Lemma traverse_Ok_intro {A B : Type} (f : A -> result B) (g : A -> B) (l : list A) :
  Forall (fun x => f x = Ok (g x)) l -> traverse f l = Ok (map g l).
Proof.
  intros H. unfold traverse, itraverse.
  rewrite (itraverse_from_Ok_intro _ (fun _ => g)).
  - f_equal. induction l as [|x l IH]; [reflexivity|].
    simpl. f_equal. apply Forall_cons in H as [_ H]. by apply IH.
  - intros j x Hj. rewrite Forall_lookup in H. by apply (H j).
Qed.

(** When [f] fails with the exception [x] only, so does the traversal, at
    the first element on which [f] fails. *)
Lemma itraverse_from_outcome {A B : Type} (f : nat -> A -> result B)
    (x : exception) (i : nat) (l : list A) :
  (forall j a, l !! j = Some a ->
               (exists y, f (i + j)%nat a = Ok y) \/ f (i + j)%nat a = Raised x) ->
  ((exists l', itraverse_from f i l = Ok l')
   /\ forall j a, l !! j = Some a -> exists y, f (i + j)%nat a = Ok y)
  \/ (itraverse_from f i l = Raised x
      /\ exists j a, l !! j = Some a /\ f (i + j)%nat a = Raised x).
Proof.
  revert i. induction l as [|a0 l IH]; intros i H.
  - left. split; [by exists []|]. intros j a Hj. discriminate Hj.
  - destruct (H 0%nat a0 eq_refl) as [[y Hy]|Hx].
    + rewrite Nat.add_0_r in Hy. destruct (IH (S i)) as [[[l' Hl'] Hall]|[Hr Hex]].
      * intros j a Hj. replace (S i + j)%nat with (i + S j)%nat by lia.
        by apply (H (S j)).
      * left. split.
        -- exists (y :: l'). simpl. by rewrite Hy, Hl'.
        -- intros [|j] a Hj; simpl in Hj.
           ++ injection Hj as <-. rewrite Nat.add_0_r. eauto.
           ++ replace (i + S j)%nat with (S i + j)%nat by lia. by apply Hall.
      * right. split.
        -- simpl. by rewrite Hy, Hr.
        -- destruct Hex as (j & a & Hj & Hfa). exists (S j), a.
           split; [exact Hj|].
           by replace (i + S j)%nat with (S i + j)%nat by lia.
    + right. split.
      * simpl. rewrite Nat.add_0_r in Hx. by rewrite Hx.
      * exists 0%nat, a0. auto.
Qed.

(** ** The cleaning steps *)

Section CleaningFacts.
Context {amount : Type}.
Variable lower : string -> string.
Variable parse_number : string -> option amount.
Variable today : nat -> Z.
Variable to_period_M : Z -> Z.
Variable categories : list (string * list string).
Variable parse_date : list date_cell -> string -> option Z.
Variable timestamp_ok : Z -> bool.

Local Abbreviation coerce := (to_numeric parse_number).
Local Abbreviation keep := (kept parse_number).
Local Abbreviation clean :=
  (clean_rows lower parse_number today to_period_M categories parse_date
              timestamp_ok).
Local Abbreviation is_cleaned := (cleaned lower to_period_M categories timestamp_ok).
Local Abbreviation category_step :=
  (fun r : row amount =>
     category <- categorize_cell lower categories (Description r) ;;
     Ok (set_Category (Some category) r)).
Local Abbreviation date_step :=
  (fun (column : list date_cell) (r : row amount) =>
     c <- to_datetime parse_date timestamp_ok column (Date_cell r) ;;
     Ok (set_Date c r)).
Local Abbreviation back_step :=
  (fun (i : nat) (r : row amount) =>
     day <- minus_days (today i) i ;;
     Ok (set_Date (DateStamp day) r)).
Local Abbreviation month_step :=
  (fun r : row amount => set_Month (to_period_M <$> Date r) r).


Lemma kept_numeric (r : row amount) :
  keep r = true ->
  Description r <> DNaN /\ exists a, coerce (Amount r) = ANum a.
Proof.
  unfold kept. destruct (Description r) as [|d|d]; [discriminate|..];
    (destruct (coerce (Amount r)) as [|a|s]; try discriminate;
     intros _; split; [discriminate | eauto]).
Qed.

(** The two [dropna] and the coercion between them keep the rows of [kept]. *)
Lemma dropna_to_numeric_dropna (rs : list (row amount)) :
  List.filter (fun r => negb (isna_amount (Amount r)))
    (map (fun r => set_Amount (coerce (Amount r)) r)
         (List.filter
            (fun r => negb (isna_description (Description r))
                      && negb (isna_amount (Amount r)))
            rs))
  = numeric_rows parse_number rs.
Proof.
  unfold numeric_rows.
  induction rs as [|[[|d|d] [|a|s] c dt m o] rs IH]; simpl; try exact IH.
  - reflexivity.
  - unfold kept; simpl. by rewrite IH.
  - unfold kept; simpl.
    destruct (parse_number s) eqn:Hs; simpl; rewrite ?Hs; by rewrite IH.
  - unfold kept; simpl. by rewrite IH.
  - unfold kept; simpl.
    destruct (parse_number s) eqn:Hs; simpl; rewrite ?Hs; by rewrite IH.
Qed.

Lemma categorize_cell_range (c : description_cell) (category : string) :
  categorize_cell lower categories c = Ok category ->
  category ∈ map fst categories ++ ["other"].
Proof.
  assert ("other" ∈ map fst categories ++ ["other"]) as Hother.
  { apply elem_of_app. right. apply list_elem_of_singleton. reflexivity. }
  destruct c as [|s|s]; simpl.
  - destruct (no_keyword categories); [|discriminate]. by intros [= <-].
  - intros [= <-]. apply first_match_range.
  - destruct (no_keyword categories); [|discriminate]. by intros [= <-].
Qed.

Lemma to_datetime_Ok_inv (column : list date_cell) (c c' : date_cell) :
  to_datetime parse_date timestamp_ok column c = Ok c' ->
  (c = DateNaT /\ c' = DateNaT)
  \/ exists day,
      c' = DateStamp day /\ timestamp_ok day = true
      /\ (c = DateStamp day
          \/ exists s, c = DateText s /\ parse_date column s = Some day).
Proof.
  destruct c as [|day|s]; simpl.
  - intros [= <-]. by left.
  - destruct (timestamp_ok day) eqn:Hok; [|discriminate].
    intros [= <-]. right. eauto 6.
  - destruct (parse_date column s) as [day|] eqn:Hs; [|discriminate].
    destruct (timestamp_ok day) eqn:Hok; [|discriminate].
    intros [= <-]. right. eauto 8.
Qed.

Lemma minus_days_Ok (day : Z) (i : nat) (d : Z) :
  minus_days day i = Ok d <->
  d = day - Z.of_nat i /\ days_back_ok day i = true.
Proof.
  unfold minus_days. destruct (days_back_ok day i); split.
  - intros [= <-]. done.
  - by intros [-> _].
  - discriminate.
  - by intros [_ ?].
Qed.

(** The rows after [df['Category'] = ...]. *)
Lemma category_rows (rs rs2 : list (row amount)) :
  traverse category_step (numeric_rows parse_number rs) = Ok rs2 ->
  length rs2 = length (List.filter keep rs)
  /\ forall i r,
      List.filter keep rs !! i = Some r ->
      exists category,
        categorize_cell lower categories (Description r) = Ok category
        /\ rs2 !! i
           = Some (Build_row (Description r) (coerce (Amount r))
                             (Some category)
                             (Date_cell r) (Month r) (Others r)).
Proof.
  intros H. apply traverse_Ok_inv in H as [Hlen Hrows].
  unfold numeric_rows in *. rewrite length_map in Hlen. split; [exact Hlen|].
  intros i r Hi.
  destruct (Hrows i (set_Amount (coerce (Amount r)) r)) as (r2 & Hr2 & Hstep).
  { by rewrite lookup_map, Hi. }
  apply bind_Ok_inv in Hstep as (c & Hc & [= <-]). simpl in Hc.
  exists c. split; [exact Hc|]. by rewrite Hr2.
Qed.

Lemma category_rows_Date (rs rs2 : list (row amount)) :
  traverse category_step (numeric_rows parse_number rs) = Ok rs2 ->
  map Date_cell rs2 = map Date_cell (List.filter keep rs).
Proof.
  intros H. apply category_rows in H as [Hlen Hrows].
  apply list_eq. intros i. rewrite !lookup_map.
  destruct (List.filter keep rs !! i) as [r|] eqn:Hi.
  - destruct (Hrows i r Hi) as (s & _ & ->). reflexivity.
  - apply lookup_ge_None in Hi. rewrite <- Hlen in Hi.
    apply lookup_ge_None in Hi. by rewrite Hi.
Qed.

(** Row [i] of the cleaned frame, from row [i] of the rows that were kept. *)
Lemma clean_rows_Ok_lookup (date_missing : bool) (rs out : list (row amount)) :
  clean date_missing rs = Ok out ->
  length out = length (List.filter keep rs)
  /\ forall i r,
      List.filter keep rs !! i = Some r ->
      exists category c,
        categorize_cell lower categories (Description r) = Ok category
        /\ out !! i
           = Some (Build_row (Description r) (coerce (Amount r))
                             (Some category)
                             c (to_period_M <$> stamp c) (Others r))
        /\ if date_missing
           then c = DateStamp (today i - Z.of_nat i)
                /\ days_back_ok (today i) i = true
                /\ timestamp_ok (today i - Z.of_nat i) = true
           else to_datetime parse_date timestamp_ok
                            (map Date_cell (List.filter keep rs)) (Date_cell r)
                = Ok c.
Proof.
  unfold clean_rows. intros H.
  apply bind_Ok_inv in H as (rs2 & H2 & H).
  apply bind_Ok_inv in H as (rs3 & H3 & H).
  apply bind_Ok_inv in H as (rs4 & H4 & [= <-]).
  pose proof (category_rows_Date _ _ H2) as Hcol.
  apply category_rows in H2 as [Hlen2 Hrows2].
  apply traverse_Ok_inv in H4 as [Hlen4 Hrows4].
  destruct date_missing; simpl in H3.
  - apply itraverse_from_Ok_inv in H3 as [Hlen3 Hrows3].
    split; [rewrite length_map; congruence|].
    intros i r Hi. destruct (Hrows2 i r Hi) as (s & Hs & Hr2).
    destruct (Hrows3 i _ Hr2) as (r3 & Hr3 & Hstep3). simpl in Hstep3.
    apply bind_Ok_inv in Hstep3 as (day & Hday & [= <-]).
    apply minus_days_Ok in Hday as [-> Hrange].
    destruct (Hrows4 i _ Hr3) as (r4 & Hr4 & Hstep4).
    apply bind_Ok_inv in Hstep4 as (c & Hc & [= <-]). simpl in Hc.
    destruct (timestamp_ok (today i - Z.of_nat i)) eqn:Hok; [|discriminate].
    injection Hc as <-.
    exists s, (DateStamp (today i - Z.of_nat i)).
    split; [exact Hs|]. split; [|auto].
    by rewrite lookup_map, Hr4.
  - injection H3 as <-.
    split; [rewrite length_map; congruence|].
    intros i r Hi. destruct (Hrows2 i r Hi) as (s & Hs & Hr2).
    destruct (Hrows4 i _ Hr2) as (r4 & Hr4 & Hstep4).
    apply bind_Ok_inv in Hstep4 as (c & Hc & [= <-]). simpl in Hc.
    rewrite Hcol in Hc.
    exists s, c. split; [exact Hs|]. split; [|exact Hc].
    by rewrite lookup_map, Hr4.
Qed.

(** When the cleaning returns. *)
Lemma clean_rows_Ok_intro (date_missing : bool) (rs : list (row amount)) :
  Forall (categorize_returns lower categories) (List.filter keep rs) ->
  dates_return today parse_date timestamp_ok date_missing (List.filter keep rs) ->
  exists out, clean date_missing rs = Ok out.
Proof.
  intros Htext Hdates. unfold clean_rows.
  set (g1 := fun r : row amount =>
               set_Category
                 (Some match categorize_cell lower categories (Description r) with
                       | Ok category => category
                       | _ => ""
                       end) r).
  assert (traverse category_step (numeric_rows parse_number rs)
          = Ok (map g1 (numeric_rows parse_number rs))) as H2.
  { apply traverse_Ok_intro. unfold numeric_rows.
    apply Forall_map_iff. eapply Forall_impl; [exact Htext|].
    intros r [c Hc]. unfold g1. simpl. by rewrite Hc. }
  rewrite H2. cbn [bind].
  pose proof (category_rows_Date _ _ H2) as Hcol.
  assert (length (map g1 (numeric_rows parse_number rs))
          = length (List.filter keep rs)) as Hlen.
  { unfold numeric_rows. by rewrite !length_map. }
  destruct date_missing; unfold dated, dates_return, itraverse in *.
  - rewrite (itraverse_from_Ok_intro _
               (fun i r => set_Date (DateStamp (today i - Z.of_nat i)) r)).
    + cbn [bind].
      rewrite (traverse_Ok_intro _ (fun r => r)); [simpl; eauto|].
      apply Forall_lookup. intros i r Hi.
      rewrite list_lookup_imap in Hi.
      destruct (map g1 (numeric_rows parse_number rs) !! i) as [r2|] eqn:Hr2;
        [|discriminate]. injection Hi as <-. simpl.
      apply lookup_lt_Some in Hr2. rewrite Hlen in Hr2.
      destruct (Hdates i Hr2) as [_ ->]. by destruct r2.
    + intros i r Hi. simpl.
      apply lookup_lt_Some in Hi. rewrite Hlen in Hi.
      destruct (Hdates i Hi) as [Hrange _].
      by rewrite (proj2 (minus_days_Ok (today i) i _) (conj eq_refl Hrange)).
  - cbn [bind]. rewrite Hcol.
    set (col := map Date_cell (List.filter keep rs)) in *.
    set (g3 := fun r : row amount =>
                 set_Date
                   match to_datetime parse_date timestamp_ok col (Date_cell r) with
                   | Ok c => c
                   | _ => DateNaT
                   end r).
    rewrite (traverse_Ok_intro _ g3); [simpl; eauto|].
    unfold numeric_rows. rewrite !Forall_map_iff.
    eapply Forall_impl; [exact Hdates|].
    intros r [c Hc]. unfold g3, g1. simpl. by rewrite Hc.
Qed.

Lemma clean_rows_cleaned (date_missing : bool) (rs out : list (row amount)) :
  clean date_missing rs = Ok out -> Forall is_cleaned out.
Proof.
  intros H. apply clean_rows_Ok_lookup in H as [Hlen Hrows].
  apply Forall_lookup. intros i r' Hi.
  destruct (List.filter keep rs !! i) as [r|] eqn:Hr.
  - destruct (Hrows i r Hr) as (s & c & Hs & Hout & Hdate).
    rewrite Hout in Hi. injection Hi as <-.
    assert (keep r = true) as Hk.
    { apply list_elem_of_lookup_2 in Hr. apply list_elem_of_In in Hr.
      by apply filter_In in Hr as [_ ?]. }
    destruct (kept_numeric r Hk) as [Hd [a Ha]].
    unfold cleaned, Date; simpl. rewrite Ha.
    split; [eauto|]. split; [eauto|]. split; [|reflexivity].
    destruct date_missing.
    + destruct Hdate as (-> & _ & Hok). right. eauto.
    + apply to_datetime_Ok_inv in Hdate as [[_ ->]|(day & -> & Hok & _)];
        [by left | right; eauto].
  - apply lookup_ge_None in Hr. rewrite <- Hlen in Hr.
    apply lookup_ge_None in Hr. congruence.
Qed.

Lemma cleaned_kept (r : row amount) : is_cleaned r -> keep r = true.
Proof.
  intros [[Hd _] [[a Ha] _]]. unfold kept. rewrite Ha. simpl.
  by destruct (Description r).
Qed.

(** A cleaned row is left as it is by every step of the cleaning. *)
Lemma clean_rows_fixed (rs : list (row amount)) :
  Forall is_cleaned rs -> clean false rs = Ok rs.
Proof.
  intros H. unfold clean_rows, numeric_rows.
  rewrite (filter_all keep rs).
  2:{ eapply Forall_impl; [exact H | apply cleaned_kept]. }
  rewrite (map_fixed _ rs).
  2:{ eapply Forall_impl; [exact H|].
      intros [d a c dt m o] (_ & [a' Ha] & _); simpl in *. by subst. }
  rewrite (traverse_Ok_intro _ (fun r => r)).
  2:{ eapply Forall_impl; [exact H|].
      intros [d a c dt m o] ([_ (c' & Hd & Hc)] & _); simpl in *.
      rewrite Hd. by subst. }
  rewrite map_id. cbn [bind dated].
  rewrite (traverse_Ok_intro _ (fun r => r)).
  2:{ eapply Forall_impl; [exact H|].
      intros [d a c dt m o] (_ & _ & [Hdt|(day & Hdt & Hok)] & _); simpl in *;
        subst; simpl; [reflexivity|]. by rewrite Hok. }
  rewrite map_id. cbn [bind]. f_equal. apply map_fixed.
  eapply Forall_impl; [exact H|].
  intros [d a c dt m o] (_ & _ & _ & Hm); unfold Date in *; simpl in *. by subst.
Qed.

(** *** The outcomes of the cleaning *)

Lemma categorize_cell_outcome (c : description_cell) :
  (exists category, categorize_cell lower categories c = Ok category)
  \/ categorize_cell lower categories c = Raised AttributeError.
Proof. destruct c; simpl; destruct (no_keyword categories); eauto. Qed.


Lemma to_datetime_outcome (column : list date_cell) (c : date_cell) :
  (exists c', to_datetime parse_date timestamp_ok column c = Ok c')
  \/ to_datetime parse_date timestamp_ok column c = Raised ValueError.
Proof.
  destruct c as [|day|s]; simpl; eauto.
  - destruct (timestamp_ok day); eauto.
  - destruct (parse_date column s) as [day|]; [|eauto].
    destruct (timestamp_ok day); eauto.
Qed.

Lemma clean_rows_Ok_iff (date_missing : bool) (rs : list (row amount)) :
  (exists out, clean date_missing rs = Ok out) <->
  Forall (categorize_returns lower categories) (List.filter keep rs)
  /\ dates_return today parse_date timestamp_ok date_missing (List.filter keep rs).
Proof.
  split.
  - intros [out H]. apply clean_rows_Ok_lookup in H as [Hlen Hrows]. split.
    + apply Forall_lookup. intros i r Hi.
      destruct (Hrows i r Hi) as (category & c & Hcat & _). by exists category.
    + destruct date_missing; unfold dates_return.
      * intros i Hi. apply lookup_lt_is_Some_2 in Hi as [r Hi].
        destruct (Hrows i r Hi) as (category & c & _ & _ & _ & Hback & Hok).
        auto.
      * apply Forall_lookup. intros i r Hi.
        destruct (Hrows i r Hi) as (category & c & _ & _ & Hc). by exists c.
  - intros [Hcat Hdates]. by apply clean_rows_Ok_intro.
Qed.

(** The cleaning ends in the exception of the first step that does not
    return: [AttributeError] from [categorize], [OverflowError] from the days
    counted back, [ValueError] from [pd.to_datetime]. *)
Lemma clean_rows_outcome (date_missing : bool) (rs : list (row amount)) :
  match clean date_missing rs with
  | Ok _ =>
      Forall (categorize_returns lower categories) (List.filter keep rs)
      /\ dates_return today parse_date timestamp_ok date_missing
                      (List.filter keep rs)
  | Err _ => False
  | Raised AttributeError =>
      Exists (fun r => ~ categorize_returns lower categories r)
             (List.filter keep rs)
  | Raised OverflowError =>
      Forall (categorize_returns lower categories) (List.filter keep rs)
      /\ date_missing = true
      /\ exists i, (i < length (List.filter keep rs))%nat
                   /\ days_back_ok (today i) i = false
  | Raised ValueError =>
      Forall (categorize_returns lower categories) (List.filter keep rs)
      /\ (date_missing = true ->
          forall i, (i < length (List.filter keep rs))%nat ->
                    days_back_ok (today i) i = true)
      /\ ~ dates_return today parse_date timestamp_ok date_missing
                        (List.filter keep rs)
  | Raised (OtherError _) => False
  end.
Proof.
  destruct (clean date_missing rs) as [out|e|x] eqn:E.
  { apply clean_rows_Ok_iff. eauto. }
  all: unfold clean_rows in E.
  all: destruct (itraverse_from_outcome (fun _ : nat => category_step)
                   AttributeError 0 (numeric_rows parse_number rs))
    as [[[rs2 H2] Hall2]|[H2 Hex2]];
    [ intros j a _; simpl;
      destruct (categorize_cell_outcome (Description a)) as [[c ->]| ->];
      simpl; eauto
    | | ].
  all: fold (itraverse (fun _ : nat => category_step)
               (numeric_rows parse_number rs)) in H2;
    fold (traverse category_step (numeric_rows parse_number rs)) in H2.
  all: rewrite H2 in E; cbn [bind] in E.
  all: try discriminate E.
  (* [categorize] has raised *)
  3:{ injection E as <-. destruct Hex2 as (j & a & Hj & Ha).
      unfold numeric_rows in Hj. rewrite lookup_map in Hj.
      destruct (List.filter keep rs !! j) as [r|] eqn:Hr; [|discriminate].
      injection Hj as <-. apply Exists_exists. exists r.
      split; [by apply list_elem_of_lookup_2 in Hr|].
      intros [c Hc]. simpl in Ha. by rewrite Hc in Ha. }
  (* [categorize] has returned on every row *)
  all: assert (Forall (categorize_returns lower categories)
                 (List.filter keep rs)) as Hcat
    by (apply Forall_lookup; intros i r Hi;
        destruct (Hall2 i (set_Amount (coerce (Amount r)) r)) as [y Hy];
        [ unfold numeric_rows; by rewrite lookup_map, Hi
        | apply bind_Ok_inv in Hy as (c & Hc & _); by exists c ]).
  all: pose proof (category_rows_Date _ _ H2) as Hcol.
  all: apply category_rows in H2 as [Hlen2 _].
  all: destruct date_missing; unfold dated, itraverse in E; cbn [bind] in E.
  all: try (destruct (itraverse_from_outcome back_step OverflowError 0 rs2)
             as [[[rs3 H3] Hall3]|[H3 Hex3]];
            [ intros j a _; simpl; unfold minus_days;
              destruct (days_back_ok (today j) j); simpl; eauto
            | | ];
            rewrite H3 in E; cbn [bind] in E; try discriminate E).
  all: try match type of E with
       | context [traverse ?f ?l] =>
           destruct (itraverse_from_outcome (fun _ : nat => f) ValueError 0 l)
             as [[[rs4 H4] Hall4]|[H4 Hex4]];
           [ intros j a _; simpl;
             destruct (to_datetime_outcome (map Date_cell l) (Date_cell a))
               as [[c ->]| ->];
             simpl; eauto
           | | ];
           fold (itraverse (fun _ : nat => f) l) in H4;
           fold (traverse f l) in H4;
           rewrite H4 in E; cbn [bind] in E; try discriminate E
       end.
  - (* without dates, [pd.to_datetime] raises *)
    injection E as <-. split; [exact Hcat|]. split.
    + intros _ i Hi. rewrite <- Hlen2 in Hi.
      apply lookup_lt_is_Some_2 in Hi as [r2 Hi].
      destruct (Hall3 i r2 Hi) as [y Hy]. simpl in Hy.
      apply bind_Ok_inv in Hy as (d & Hd & _).
      by apply minus_days_Ok in Hd as [_ ?].
    + intros Hdates. destruct Hex4 as (j & r3 & Hj & Hr3).
      apply itraverse_from_Ok_inv in H3 as [Hlen3 Hrows3].
      assert (j < length rs2)%nat as Hlt.
      { rewrite <- Hlen3. by apply lookup_lt_Some in Hj. }
      apply lookup_lt_is_Some_2 in Hlt as [r2 Hr2].
      destruct (Hrows3 j r2 Hr2) as (y & Hy & Hstep). simpl in Hstep.
      rewrite Hj in Hy. injection Hy as <-.
      apply bind_Ok_inv in Hstep as (d & Hd & [= <-]).
      apply minus_days_Ok in Hd as [-> _].
      apply lookup_lt_Some in Hr2. rewrite Hlen2 in Hr2.
      destruct (Hdates j Hr2) as [_ Hok]. simpl in Hr3. by rewrite Hok in Hr3.
  - (* without dates, a day counted back is out of range *)
    injection E as <-. split; [exact Hcat|]. split; [reflexivity|].
    destruct Hex3 as (j & r2 & Hj & Hr2). exists j. split.
    + rewrite <- Hlen2. by apply lookup_lt_Some in Hj.
    + simpl in Hr2. unfold minus_days in Hr2.
      by destruct (days_back_ok (today j) j).
  - (* with dates, [pd.to_datetime] raises *)
    injection E as <-. split; [exact Hcat|]. split; [discriminate|].
    intros Hdates. unfold dates_return in Hdates.
    destruct Hex4 as (j & r2 & Hj & Hr2). simpl in Hr2. rewrite Hcol in Hr2.
    assert (Date_cell r2 ∈ map Date_cell (List.filter keep rs)) as Hin.
    { rewrite <- Hcol. apply list_elem_of_fmap. exists r2.
      split; [reflexivity|]. by apply list_elem_of_lookup_2 in Hj. }
    apply list_elem_of_fmap in Hin as (r & Hdt & Hr).
    rewrite Forall_forall in Hdates. destruct (Hdates r Hr) as [c Hc].
    rewrite Hdt, Hc in Hr2. discriminate Hr2.
Qed.




Lemma has_column_elem_of (label : string) (df : DataFrame amount) :
  has_column label df = true <-> label ∈ columns df.
Proof. apply existsb_eqb_elem_of. Qed.

Lemma has_column_not_elem_of (label : string) (df : DataFrame amount) :
  has_column label df = false <-> label ∉ columns df.
Proof. rewrite <- has_column_elem_of. symmetry. apply not_true_iff_false. Qed.

(** The column check, and the frame that the [else] branch builds. *)
Lemma validate_and_clean_eq (df : DataFrame amount) :
  validate_and_clean lower parse_number today to_period_M categories parse_date
                     timestamp_ok df
  = if negb (has_column "Description" df) || negb (has_column "Amount" df)
    then Err MissingColumnError
    else rs <- clean (negb (has_column "Date" df)) (rows df) ;;
         Ok (mk_df (clean_columns (columns df)) rs).
Proof.
  unfold validate_and_clean.
  destruct (has_column "Description" df) eqn:Hd; [|reflexivity].
  destruct (has_column "Amount" df) eqn:Ha; [|reflexivity].
  cbn [negb orb].
  unfold assign_Month, to_datetime_Date, assign_missing_Date, assign_Category,
    dropna_Amount, coerce_Amount, dropna_Description_Amount, clean_rows.
  cbn [columns rows].
  apply has_column_elem_of in Ha.
  rewrite (with_column_present "Amount") by exact Ha.
  rewrite dropna_to_numeric_dropna.
  destruct (traverse category_step (numeric_rows parse_number (rows df)))
    as [rs2| |]; cbn [bind]; [|reflexivity..].
  assert (has_column "Date" (mk_df (with_column "Category" (columns df)) rs2)
          = has_column "Date" df) as ->.
  { apply eq_true_iff_eq. rewrite !has_column_elem_of. cbn [columns].
    rewrite elem_of_with_column. split; [|by left].
    intros [H|H]; [exact H | discriminate H]. }
  unfold clean_columns, dated.
  destruct (has_column "Date" df) eqn:Hdate; cbn [negb columns rows bind].
  - apply has_column_elem_of in Hdate.
    rewrite !(with_column_present "Date")
      by (apply elem_of_with_column; by left).
    by destruct (traverse _ rs2).
  - destruct (itraverse _ rs2) as [rs3| |]; cbn [bind columns rows];
      [|reflexivity..].
    rewrite (with_column_present "Date" (with_column "Date" _))
      by (apply elem_of_with_column; by right).
    by destruct (traverse _ rs3).
Qed.

Lemma validate_and_clean_err (df : DataFrame amount) :
  "Description" ∉ columns df \/ "Amount" ∉ columns df ->
  validate_and_clean lower parse_number today to_period_M categories parse_date
                     timestamp_ok df
  = Err MissingColumnError.
Proof.
  rewrite validate_and_clean_eq.
  intros [H|H]; apply has_column_not_elem_of in H; rewrite H;
    [reflexivity | by destruct (has_column "Description" df)].
Qed.

Lemma validate_and_clean_columns (df : DataFrame amount) :
  "Description" ∈ columns df -> "Amount" ∈ columns df ->
  validate_and_clean lower parse_number today to_period_M categories parse_date
                     timestamp_ok df
  = (rs <- clean (negb (has_column "Date" df)) (rows df) ;;
     Ok (mk_df (clean_columns (columns df)) rs)).
Proof.
  intros Hd Ha. apply has_column_elem_of in Hd, Ha.
  by rewrite validate_and_clean_eq, Hd, Ha.
Qed.

Lemma validate_and_clean_inv (df out : DataFrame amount) :
  validate_and_clean lower parse_number today to_period_M categories parse_date
                     timestamp_ok df = Ok out ->
  "Description" ∈ columns df /\ "Amount" ∈ columns df
  /\ exists rs,
      clean (negb (has_column "Date" df)) (rows df) = Ok rs
      /\ out = mk_df (clean_columns (columns df)) rs.
Proof.
  rewrite validate_and_clean_eq.
  destruct (has_column "Description" df) eqn:Hd; [|discriminate].
  destruct (has_column "Amount" df) eqn:Ha; [|discriminate].
  cbn [negb orb]. intros H. apply bind_Ok_inv in H as (rs & Hrs & [= <-]).
  apply has_column_elem_of in Hd, Ha. eauto.
Qed.


End CleaningFacts.
(** ** Sums *)

Section SumFacts.
Context {amount : Type}.
Variable amount_zero : amount.
Variable amount_add : amount -> amount -> amount.

Local Abbreviation total := (sum_amounts amount_zero amount_add).
Local Abbreviation col_sum := (Series_sum amount_zero amount_add).
Local Abbreviation groups_sum := (groups_total amount_zero amount_add).

Lemma Series_sum_nil : col_sum [] = amount_zero.
Proof. reflexivity. Qed.

(** [df[df['Category'] == category]] is empty when no row has the category. *)
Lemma actual_absent (df : DataFrame amount) (category : string) :
  (forall r, r ∈ rows df -> Category r <> Some category) ->
  actual amount_zero amount_add df category = amount_zero.
Proof.
  intros H. unfold actual.
  assert (List.filter
            (fun r => match Category r with
                      | Some c => String.eqb c category
                      | None => false
                      end) (rows df) = []) as ->; [|reflexivity].
  induction (rows df) as [|r rs IH]; [reflexivity|]. simpl.
  destruct (Category r) as [c|] eqn:Hc.
  - destruct (String.eqb_spec c category) as [->|Hne].
    + exfalso. apply (H r); [left | exact Hc].
    + apply IH. intros r' Hr'. apply H. by right.
  - apply IH. intros r' Hr'. apply H. by right.
Qed.

(** From here on the addition of amounts is associative and commutative
    with [amount_zero] as unit: exact numbers, or machine integers that
    wrap around. *)
Hypothesis add_comm : forall a b, amount_add a b = amount_add b a.
Hypothesis add_assoc :
  forall a b c, amount_add a (amount_add b c) = amount_add (amount_add a b) c.
Hypothesis add_zero_l : forall a, amount_add amount_zero a = a.
Collection laws := add_comm add_assoc add_zero_l.

Lemma add_zero_r (a : amount) : amount_add a amount_zero = a.
Proof using laws. by rewrite add_comm, add_zero_l. Qed.

Lemma fold_left_add (l : list amount) (x : amount) :
  fold_left amount_add l x = amount_add x (total l).
Proof using laws.
  unfold sum_amounts. revert x.
  induction l as [|a l IH]; intros x; simpl.
  - by rewrite add_zero_r.
  - rewrite (IH (amount_add x a)), (IH (amount_add amount_zero a)).
    by rewrite add_zero_l, add_assoc.
Qed.

Lemma sum_amounts_cons (a : amount) (l : list amount) :
  total (a :: l) = amount_add a (total l).
Proof using laws.
  unfold sum_amounts at 1. simpl. by rewrite fold_left_add, add_zero_l.
Qed.

Lemma sum_amounts_app (l1 l2 : list amount) :
  total (l1 ++ l2) = amount_add (total l1) (total l2).
Proof using laws.
  unfold sum_amounts at 1. rewrite fold_left_app. apply fold_left_add.
Qed.

Lemma Series_sum_app (c1 c2 : list (amount_cell amount)) :
  col_sum (c1 ++ c2) = amount_add (col_sum c1) (col_sum c2).
Proof using laws. unfold Series_sum. by rewrite omap_app, sum_amounts_app. Qed.

Lemma Series_sum_cons (c : amount_cell amount) (cs : list (amount_cell amount)) :
  col_sum (c :: cs) = amount_add (col_sum [c]) (col_sum cs).
Proof using laws. apply (Series_sum_app [c] cs). Qed.

Lemma groups_total_cons {K : Type} (k : K) (g : list (row amount))
    (groups : list (K * list (row amount))) :
  groups_sum ((k, g) :: groups)
  = amount_add (col_sum (map Amount g)) (groups_sum groups).
Proof using laws. unfold groups_total. simpl. apply sum_amounts_cons. Qed.

(** One more row adds its amount to the sum of the group sums, whichever
    group it joins. *)
Lemma groups_total_insert {K : Type} (K_eqb K_ltb : K -> K -> bool)
    (k : K) (r : row amount) (groups : list (K * list (row amount))) :
  groups_sum (group_insert K_eqb K_ltb k r groups)
  = amount_add (groups_sum groups) (col_sum [Amount r]).
Proof using laws.
  induction groups as [|[k' g] groups IH]; simpl.
  - rewrite groups_total_cons. apply add_comm.
  - destruct (K_eqb k k').
    + rewrite !groups_total_cons, map_app, Series_sum_app. simpl.
      rewrite <- !add_assoc. f_equal. apply add_comm.
    + destruct (K_ltb k k').
      * rewrite (groups_total_cons k [r]). apply add_comm.
      * rewrite !groups_total_cons, IH. apply add_assoc.
Qed.

Lemma groups_total_fold {K : Type} (K_eqb K_ltb : K -> K -> bool)
    (key : row amount -> option K) (rs : list (row amount))
    (groups : list (K * list (row amount))) :
  groups_sum
    (fold_left
       (fun groups r =>
          match key r with
          | Some k => group_insert K_eqb K_ltb k r groups
          | None => groups
          end)
       rs groups)
  = amount_add (groups_sum groups)
               (col_sum (map Amount (List.filter (has_key key) rs))).
Proof using laws.
  revert groups. induction rs as [|r rs IH]; intros groups; simpl.
  - by rewrite Series_sum_nil, add_zero_r.
  - rewrite IH. unfold has_key at 2. destruct (key r) as [k|]; [|reflexivity].
    rewrite groups_total_insert. cbn [map].
    rewrite (Series_sum_cons (Amount r) (map Amount (List.filter (has_key key) rs))).
    apply eq_sym, add_assoc.
Qed.

(** The sums of a [groupby] add up to the sum over the rows that have a key. *)
Lemma groupby_Amount_sum_total {K : Type} (K_eqb K_ltb : K -> K -> bool)
    (key : row amount -> option K) (df : DataFrame amount) :
  total (map snd (groupby_Amount_sum amount_zero amount_add K_eqb K_ltb key df))
  = col_sum (map Amount (List.filter (has_key key) (rows df))).
Proof using laws.
  unfold groupby_Amount_sum, groupby. rewrite map_map.
  transitivity
    (groups_sum
       (fold_left
          (fun groups r =>
             match key r with
             | Some k => group_insert K_eqb K_ltb k r groups
             | None => groups
             end)
          (rows df) [])).
  - unfold groups_total. f_equal. apply map_ext. by intros [k g].
  - rewrite groups_total_fold. apply add_zero_l.
Qed.
End SumFacts.

(** ** Running the definitions *)

Example categorize_walmart :
  categorize str_lower_ascii default_categories "Walmart trip" = "groceries".
Proof. reflexivity. Qed.

Example categorize_substring :
  categorize str_lower_ascii default_categories "Parent meeting" = "rent".
Proof. reflexivity. Qed.

Example saving_tips_rent :
  saving_tips "rent"
  = "Try to negotiate a lower rent or consider moving to a more affordable place.".
Proof. vm_compute. reflexivity. Qed.

Example month_of_day_2026_11_03 : month_of_day 20760 = (2026 - 1970) * 12 + 10.
Proof. reflexivity. Qed.

Example clean_sample_upload :
  clean_Z sample_upload
  = Ok (mk_df ["Description"; "Amount"; "Category"; "Date"; "Month"]
          [ mk_row (Some "Walmart trip") (ANum 54) (Some "groceries")
                   (Some 20760) (Some 682);
            mk_row (Some "Netflix") (ANum 16) (Some "entertainment")
                   (Some 20759) (Some 682) ]).
Proof. reflexivity. Qed.

Example process_sample_upload :
  process_Z sample_upload default_budgets
  = Results
      (mk_report
         (mk_df ["Description"; "Amount"; "Category"; "Date"; "Month"]
            [ mk_row (Some "Walmart trip") (ANum 54) (Some "groceries")
                     (Some 20760) (Some 682);
              mk_row (Some "Netflix") (ANum 16) (Some "entertainment")
                     (Some 20759) (Some 682) ])
         [("entertainment", 16); ("groceries", 54)]
         [("entertainment",
           "Cut down on subscriptions and find free or low-cost entertainment options.");
          ("groceries",
           "Consider buying in bulk, using coupons, and shopping at discount stores.")]
         [(682, 70)]
         [ mk_budget_row "groceries" 200 54;
           mk_budget_row "rent" 1000 0;
           mk_budget_row "utilities" 150 0;
           mk_budget_row "entertainment" 100 16 ]
         70).
Proof. vm_compute. reflexivity. Qed.

Example parse_iso_date_2026_11_03 : parse_iso_date [] "2026-11-03" = Some 20760.
Proof. vm_compute. reflexivity. Qed.

(** From 2026-11-03, 739922 days back is 0001-01-01, the first day of
    [datetime]; one day more is out of its range. *)
Example first_day_from_2026_11_03 : 20760 - 739922 = datetime_min_day.
Proof. reflexivity. Qed.

Example minus_days_first_day :
  minus_days (datetime_min_day + 1) 1 = Ok datetime_min_day.
Proof. reflexivity. Qed.

Example minus_days_overflow : minus_days datetime_min_day 1 = Raised OverflowError.
Proof. reflexivity. Qed.

Example clean_upload_bad_date : clean_Z upload_bad_date = Raised ValueError.
Proof. reflexivity. Qed.

Example process_numeric_description :
  process_Z upload_numeric_description default_budgets
  = Traceback AttributeError.
Proof. reflexivity. Qed.

(** ** Properties of the categorizer *)

Ltac split_elem_of H :=
  apply list_elem_of_In in H; simpl in H;
  repeat (destruct H as [H|H]; [try (injection H as <- <-); subst|]);
  try contradiction.

(** C1. If the lower-cased description contains a keyword of category [C]
    and no keyword of a category declared before [C], [categorize] returns
    [C]: of two categories with a matching keyword the one declared first
    wins.  The built-in rules are declared in the order groceries, rent,
    utilities, entertainment, other. *)
Theorem categorize_first_declared_match :
  map fst (load_categories None)
  = ["groceries"; "rent"; "utilities"; "entertainment"; "other"]
  /\ forall (lower : string -> string)
            (categories earlier later : list (string * list string))
            (C : string) (keywords : list string) (description : string),
      categories = earlier ++ (C, keywords) :: later ->
      (exists keyword,
          keyword ∈ keywords /\ str_in keyword (lower description) = true) ->
      (forall c kws k,
          (c, kws) ∈ earlier -> k ∈ kws -> str_in k (lower description) = false) ->
      categorize lower categories description = C.
Proof.
  split; [reflexivity|].
  intros lower categories earlier later C keywords description -> Hmatch Hearlier.
  unfold categorize. rewrite first_match_skip by exact Hearlier.
  simpl. apply any_keyword_in_true in Hmatch. by rewrite Hmatch.
Qed.

Lemma categorize_first_declared_match_witness :
  categorize str_lower_ascii default_categories "Netflix and GAS" = "utilities".
Proof.
  apply (proj2 categorize_first_declared_match str_lower_ascii default_categories
           [ ("groceries", ["walmart"; "supermarket"; "grocery"; "aldi"]);
             ("rent", ["rent"; "apartment"]) ]
           [ ("entertainment", ["netflix"; "cinema"; "movie"; "concert"]);
             ("other", []) ]
           "utilities" ["electric"; "water"; "gas"; "internet"]).
  - reflexivity.
  - exists "gas". split; [|reflexivity].
    apply list_elem_of_In. simpl. tauto.
  - intros c kws k Hc Hk.
    split_elem_of Hc; split_elem_of Hk; reflexivity.
Defined.

(** C8. A description whose lower-cased form contains no keyword of any
    category is categorized as "other"; a category with no keywords matches
    nothing and is passed over. *)
Theorem categorize_no_match_other :
  (forall description, any_keyword_in [] description = false)
  /\ (forall lower c rest description,
         categorize lower ((c, []) :: rest) description
         = categorize lower rest description)
  /\ forall (lower : string -> string) (categories : list (string * list string))
            (description : string),
      (forall c kws k,
          (c, kws) ∈ categories -> k ∈ kws ->
          str_in k (lower description) = false) ->
      categorize lower categories description = "other".
Proof.
  split; [reflexivity|]. split; [reflexivity|].
  intros lower categories description H. unfold categorize.
  rewrite <- (app_nil_r categories). by rewrite first_match_skip.
Qed.

Lemma categorize_no_match_other_witness :
  categorize str_lower_ascii default_categories "Cash" = "other".
Proof.
  apply (proj2 (proj2 categorize_no_match_other)).
  intros c kws k Hc Hk.
  split_elem_of Hc; split_elem_of Hk; reflexivity.
Defined.

(** C10. [categorize] is a total function and its result is a category name
    of the rule set or the string "other"; so the category of every row of
    a cleaned frame is one of these. *)
Theorem categorize_in_rule_set_or_other :
  forall (lower : string -> string) (categories : list (string * list string)),
    (forall description,
        categorize lower categories description ∈ map fst categories ++ ["other"])
    /\ forall (amount : Type) (parse_number : string -> option amount)
              (today : nat -> Z) (to_period_M : Z -> Z)
              (parse_date : list date_cell -> string -> option Z)
              (timestamp_ok : Z -> bool)
              (df out : DataFrame amount) (r : row amount),
        validate_and_clean lower parse_number today to_period_M categories
                           parse_date timestamp_ok df
        = Ok out ->
        r ∈ rows out ->
        exists c, Category r = Some c /\ c ∈ map fst categories ++ ["other"].
Proof.
  intros lower categories. split.
  - intros description. apply first_match_range.
  - intros amount parse_number today to_period_M parse_date timestamp_ok
           df out r Hok Hr.
    apply validate_and_clean_inv in Hok as (_ & _ & rs & Hrs & ->).
    simpl in Hr. apply clean_rows_cleaned in Hrs as Hall.
    rewrite Forall_forall in Hall.
    destruct (Hall r Hr) as [[_ (c & Hcell & Hc)] _].
    exists c. split; [exact Hc|].
    by apply categorize_cell_range in Hcell.
Qed.

Lemma categorize_in_rule_set_or_other_witness :
  exists c,
    Category (mk_row (Some "Netflix") (ANum 16) (Some "entertainment")
                     (Some 20759) (Some 682)) = Some c
    /\ c ∈ map fst default_categories ++ ["other"].
Proof.
  apply (proj2 (categorize_in_rule_set_or_other str_lower_ascii default_categories)
           Z parse_int sample_today month_of_day parse_iso_date
           nanosecond_timestamp sample_upload
           (mk_df ["Description"; "Amount"; "Category"; "Date"; "Month"]
              [ mk_row (Some "Walmart trip") (ANum 54) (Some "groceries")
                       (Some 20760) (Some 682);
                mk_row (Some "Netflix") (ANum 16) (Some "entertainment")
                       (Some 20759) (Some 682) ])).
  - reflexivity.
  - simpl. apply list_elem_of_In. simpl. tauto.
Defined.

(** ** Saving tips *)

(** C4, as stated, fails: a category outside the table gets its own default
    text, not the text of "other". *)
Lemma saving_tips_unlisted_is_not_other :
  saving_tips "travel" <> saving_tips "other".
Proof. vm_compute. discriminate. Qed.

(** C4, amended. Each of the five default categories has its own text in the
    table; every other category name gets the fixed text "No tips
    available.", which is none of the five. *)
Theorem saving_tips_table :
  saving_tips "groceries"
  = "Consider buying in bulk, using coupons, and shopping at discount stores."
  /\ saving_tips "rent"
     = "Try to negotiate a lower rent or consider moving to a more affordable place."
  /\ saving_tips "utilities"
     = "Turn off unused electronics, and use energy-efficient appliances."
  /\ saving_tips "entertainment"
     = "Cut down on subscriptions and find free or low-cost entertainment options."
  /\ saving_tips "other"
     = "Analyze discretionary expenses and reduce non-essential spending."
  /\ NoDup (map saving_tips
              ["groceries"; "rent"; "utilities"; "entertainment"; "other"])
  /\ forall category,
      category ∉ ["groceries"; "rent"; "utilities"; "entertainment"; "other"] ->
      saving_tips category = "No tips available."
      /\ saving_tips category
         ∉ map saving_tips
             ["groceries"; "rent"; "utilities"; "entertainment"; "other"].
Proof.
  assert (map saving_tips
            ["groceries"; "rent"; "utilities"; "entertainment"; "other"]
          = [ "Consider buying in bulk, using coupons, and shopping at discount stores.";
              "Try to negotiate a lower rent or consider moving to a more affordable place.";
              "Turn off unused electronics, and use energy-efficient appliances.";
              "Cut down on subscriptions and find free or low-cost entertainment options.";
              "Analyze discretionary expenses and reduce non-essential spending." ])
    as Htexts by (vm_compute; reflexivity).
  repeat (split; [vm_compute; reflexivity|]).
  rewrite Htexts. split.
  - repeat (apply NoDup_cons; split;
      [rewrite ?elem_of_cons, elem_of_nil; intros H;
       repeat (destruct H as [H|H]; [discriminate H|]); exact H|]).
    apply NoDup_nil_2.
  - intros category Hnot.
    assert (saving_tips category = "No tips available.") as Hdef.
    { rewrite !not_elem_of_cons in Hnot.
      destruct Hnot as (? & ? & ? & ? & ? & _).
      unfold saving_tips, tips.
      by rewrite !lookup_insert_ne, lookup_empty by congruence. }
    split; [exact Hdef|]. rewrite Hdef.
    rewrite !elem_of_cons, elem_of_nil. intros H.
    repeat (destruct H as [H|H]; [discriminate H|]). exact H.
Qed.

Lemma saving_tips_table_witness :
  saving_tips "travel" = "No tips available.".
Proof.
  apply (proj2 (proj2 (proj2 (proj2 (proj2 (proj2 saving_tips_table))))) "travel").
  rewrite !not_elem_of_cons. repeat (split; [discriminate|]).
  apply not_elem_of_nil.
Defined.

(** ** Properties of the cleaning *)

(** C5. When the upload lacks the [Description] column or the [Amount]
    column, the column check fails with [MissingColumnError] and the page is
    the error message alone: no cleaned rows and no summary are produced. *)
Theorem missing_column_stops_processing :
  forall (amount : Type) (amount_zero : amount)
         (amount_add : amount -> amount -> amount)
         (lower : string -> string) (parse_number : string -> option amount)
         (today : nat -> Z) (to_period_M : Z -> Z)
         (categories : list (string * list string))
         (parse_date : list date_cell -> string -> option Z)
         (timestamp_ok : Z -> bool) (draw : charts)
         (df : DataFrame amount) (b : budgets),
    "Description" ∉ columns df \/ "Amount" ∉ columns df ->
    validate_and_clean lower parse_number today to_period_M categories
                       parse_date timestamp_ok df
    = Err MissingColumnError
    /\ process amount_zero amount_add lower parse_number today to_period_M
               categories parse_date timestamp_ok draw df b
       = ErrorMessage "CSV must contain 'Description' and 'Amount' columns."
    /\ forall r,
        process amount_zero amount_add lower parse_number today to_period_M
                categories parse_date timestamp_ok draw df b
        <> Results r.
Proof.
  intros amount amount_zero amount_add lower parse_number today to_period_M
         categories parse_date timestamp_ok draw df b H.
  pose proof (validate_and_clean_err lower parse_number today to_period_M
                categories parse_date timestamp_ok df H) as Herr.
  unfold process. rewrite Herr. repeat split. discriminate.
Qed.

Lemma missing_column_stops_processing_witness :
  clean_Z upload_no_amount = Err MissingColumnError
  /\ process_Z upload_no_amount default_budgets
     = ErrorMessage "CSV must contain 'Description' and 'Amount' columns."
  /\ forall r, process_Z upload_no_amount default_budgets <> Results r.
Proof.
  apply (missing_column_stops_processing Z 0 Z.add str_lower_ascii parse_int
           sample_today month_of_day default_categories parse_iso_date
           nanosecond_timestamp sample_charts upload_no_amount default_budgets).
  right. simpl. rewrite !not_elem_of_cons.
  repeat (split; [discriminate|]). apply not_elem_of_nil.
Defined.







(** C9. Cleaning a cleaned frame again, on whatever day, gives the same
    frame: no row is dropped and no cell changes. *)
Theorem validate_and_clean_idempotent :
  forall (amount : Type)
         (lower : string -> string) (parse_number : string -> option amount)
         (today today' : nat -> Z) (to_period_M : Z -> Z)
         (categories : list (string * list string))
         (parse_date : list date_cell -> string -> option Z)
         (timestamp_ok : Z -> bool)
         (df out : DataFrame amount),
    validate_and_clean lower parse_number today to_period_M categories
                       parse_date timestamp_ok df
    = Ok out ->
    validate_and_clean lower parse_number today' to_period_M categories
                       parse_date timestamp_ok out
    = Ok out.
Proof.
  intros amount lower parse_number today today' to_period_M categories
         parse_date timestamp_ok df out Hok.
  apply validate_and_clean_inv in Hok as (Hd & Ha & rs & Hrs & ->).
  rewrite validate_and_clean_columns; cbn [columns rows].
  2, 3: apply elem_of_clean_columns; by left.
  assert (has_column "Date" (mk_df (clean_columns (columns df)) rs) = true) as ->.
  { apply has_column_elem_of. simpl. apply elem_of_clean_columns. tauto. }
  cbn [negb]. rewrite clean_columns_fixed, clean_rows_fixed; [reflexivity|].
  by apply clean_rows_cleaned in Hrs.
Qed.

Lemma validate_and_clean_idempotent_witness :
  clean_Z
    (mk_df ["Description"; "Amount"; "Category"; "Date"; "Month"]
       [ mk_row (Some "Walmart trip") (ANum 54) (Some "groceries")
                (Some 20760) (Some 682);
         mk_row (Some "Netflix") (ANum 16) (Some "entertainment")
                (Some 20759) (Some 682) ])
  = Ok (mk_df ["Description"; "Amount"; "Category"; "Date"; "Month"]
          [ mk_row (Some "Walmart trip") (ANum 54) (Some "groceries")
                   (Some 20760) (Some 682);
            mk_row (Some "Netflix") (ANum 16) (Some "entertainment")
                   (Some 20759) (Some 682) ]).
Proof.
  apply (validate_and_clean_idempotent Z str_lower_ascii parse_int
           sample_today sample_today month_of_day default_categories
           parse_iso_date nanosecond_timestamp sample_upload).
  reflexivity.
Defined.

(** ** Properties of the aggregation *)

Lemma process_results_inv {amount : Type} (amount_zero : amount)
    (amount_add : amount -> amount -> amount)
    (lower : string -> string) (parse_number : string -> option amount)
    (today : nat -> Z) (to_period_M : Z -> Z)
    (categories : list (string * list string))
    (parse_date : list date_cell -> string -> option Z)
    (timestamp_ok : Z -> bool) (draw : charts)
    (df : DataFrame amount) (b : budgets) (r : report) :
  process amount_zero amount_add lower parse_number today to_period_M categories
          parse_date timestamp_ok draw df b = Results r ->
  exists out,
    validate_and_clean lower parse_number today to_period_M categories
                       parse_date timestamp_ok df = Ok out
    /\ shown_df r = out
    /\ shown_summary r = summary amount_zero amount_add out
    /\ shown_monthly r = monthly_spending amount_zero amount_add out
    /\ shown_budget r = budgetComparison amount_zero amount_add out b
    /\ shown_total r = total_spent amount_zero amount_add out.
Proof.
  unfold process.
  destruct (validate_and_clean lower parse_number today to_period_M categories
              parse_date timestamp_ok df)
    as [out|[]|x]; [|discriminate..].
  destruct (barplot draw _); [discriminate|].
  destruct (pie draw _); [discriminate|].
  destruct (trend_plot draw _); [discriminate|].
  destruct (budget_bars draw _); [discriminate|].
  intros [= <-]. exists out. simpl. auto 10.
Qed.

(** C2, as stated, fails: the row without a date is in no month, so the
    monthly sums miss its amount. *)
Lemma monthly_sums_miss_undated_rows :
  exists r,
    process_Z upload_missing_date default_budgets = Results r
    /\ sum_amounts 0 Z.add (map snd (shown_summary r)) = 70
    /\ shown_total r = 70
    /\ sum_amounts 0 Z.add (map snd (shown_monthly r)) = 54
    /\ sum_amounts 0 Z.add (map snd (shown_monthly r)) <> shown_total r.
Proof.
  eexists. split; [reflexivity|]. vm_compute.
  repeat (split; [reflexivity|]). discriminate.
Qed.

(** C2, amended. With an addition of amounts that is associative and
    commutative with unit [amount_zero]: the sums per category add up to
    [total_spent], which is the sum of the amounts of all cleaned rows; the
    sums per month add up to the sum of the amounts of the cleaned rows that
    have a date, hence to [total_spent] when every row has one, as is the
    case when the upload has no [Date] column. *)
Theorem summaries_add_up :
  forall (amount : Type) (amount_zero : amount)
         (amount_add : amount -> amount -> amount),
    (forall a b, amount_add a b = amount_add b a) ->
    (forall a b c, amount_add a (amount_add b c) = amount_add (amount_add a b) c) ->
    (forall a, amount_add amount_zero a = a) ->
    forall (lower : string -> string) (parse_number : string -> option amount)
           (today : nat -> Z) (to_period_M : Z -> Z)
           (categories : list (string * list string))
           (parse_date : list date_cell -> string -> option Z)
           (timestamp_ok : Z -> bool) (draw : charts)
           (df : DataFrame amount) (b : budgets) (r : report),
      process amount_zero amount_add lower parse_number today to_period_M
              categories parse_date timestamp_ok draw df b = Results r ->
      sum_amounts amount_zero amount_add (map snd (shown_summary r))
      = shown_total r
      /\ shown_total r
         = Series_sum amount_zero amount_add (map Amount (rows (shown_df r)))
      /\ sum_amounts amount_zero amount_add (map snd (shown_monthly r))
         = Series_sum amount_zero amount_add
             (map Amount (List.filter (has_key Date) (rows (shown_df r))))
      /\ (Forall (fun row => is_Some (Date row)) (rows (shown_df r)) ->
          sum_amounts amount_zero amount_add (map snd (shown_monthly r))
          = shown_total r)
      /\ ("Date" ∉ columns df ->
          sum_amounts amount_zero amount_add (map snd (shown_monthly r))
          = shown_total r).
Proof.
  intros amount amount_zero amount_add Hcomm Hassoc Hzero
         lower parse_number today to_period_M categories parse_date
         timestamp_ok draw df b r Hr.
  apply process_results_inv in Hr
    as (out & Hout & -> & -> & -> & _ & ->).
  apply validate_and_clean_inv in Hout as (Hd & Ha & rs & Hrs & Hout).
  assert (Forall (cleaned lower to_period_M categories timestamp_ok) (rows out))
    as Hclean.
  { subst out. by apply clean_rows_cleaned in Hrs. }
  assert (total_spent amount_zero amount_add out
          = Series_sum amount_zero amount_add (map Amount (rows out))) as Htotal.
  { unfold total_spent, summary.
    rewrite groupby_Amount_sum_total by assumption.
    rewrite filter_all; [reflexivity|].
    eapply Forall_impl; [exact Hclean|].
    intros x [[_ (c & _ & Hc)] _]. unfold has_key. by rewrite Hc. }
  assert (sum_amounts amount_zero amount_add
            (map snd (monthly_spending amount_zero amount_add out))
          = Series_sum amount_zero amount_add
              (map Amount (List.filter (has_key Date) (rows out)))) as Hmonthly.
  { unfold monthly_spending.
    rewrite groupby_Amount_sum_total by assumption.
    f_equal. f_equal. apply filter_ext_in. intros x Hx.
    rewrite Forall_forall in Hclean.
    apply list_elem_of_In, Hclean in Hx. destruct Hx as (_ & _ & _ & Hm).
    unfold has_key. rewrite Hm. by destruct (Date x). }
  assert (Forall (fun row => is_Some (Date row)) (rows out) ->
          sum_amounts amount_zero amount_add
            (map snd (monthly_spending amount_zero amount_add out))
          = total_spent amount_zero amount_add out) as Hdated.
  { intros Hall. rewrite Hmonthly, Htotal, filter_all; [reflexivity|].
    eapply Forall_impl; [exact Hall|].
    intros x [d Hx]. unfold has_key. by rewrite Hx. }
  split; [reflexivity|]. split; [exact Htotal|]. split; [exact Hmonthly|].
  split; [exact Hdated|].
  intros Hdate. apply Hdated.
  apply has_column_not_elem_of in Hdate.
  subst out. cbn [rows]. rewrite Hdate in Hrs. cbn [negb] in Hrs.
  apply clean_rows_Ok_lookup in Hrs as [Hlen Hrows].
  apply Forall_lookup. intros i x Hx.
  destruct (List.filter (kept parse_number) (rows df) !! i) as [r0|] eqn:Hi.
  - destruct (Hrows i r0 Hi) as (s & c & _ & Hout & -> & _).
    rewrite Hout in Hx. injection Hx as <-. simpl. eauto.
  - apply lookup_ge_None in Hi. rewrite <- Hlen in Hi.
    apply lookup_ge_None in Hi. congruence.
Qed.

Lemma summaries_add_up_witness :
  exists r,
    process_Z sample_upload default_budgets = Results r
    /\ sum_amounts 0 Z.add (map snd (shown_summary r)) = shown_total r
    /\ sum_amounts 0 Z.add (map snd (shown_monthly r)) = shown_total r.
Proof.
  eexists. split; [reflexivity|].
  destruct (summaries_add_up Z 0 Z.add Z.add_comm Z.add_assoc Z.add_0_l
              str_lower_ascii parse_int sample_today month_of_day
              default_categories parse_iso_date nanosecond_timestamp
              sample_charts sample_upload default_budgets _ eq_refl)
    as (Hsum & _ & _ & _ & Hmonthly).
  split; [exact Hsum|]. apply Hmonthly. simpl.
  rewrite !not_elem_of_cons. repeat (split; [discriminate|]).
  apply not_elem_of_nil.
Defined.

(** C3. The budget comparison has exactly four rows, for groceries, rent,
    utilities and entertainment in this order, whatever categories the frame
    holds; each row carries the budget entered for its category and the sum
    of the amounts of that category; a category without a row in the frame
    has actual [amount_zero]; "other" is not among the four. *)
Theorem budget_comparison_fixed_categories :
  forall (amount : Type) (amount_zero : amount)
         (amount_add : amount -> amount -> amount)
         (df : DataFrame amount) (b : budgets),
    length (budgetComparison amount_zero amount_add df b) = 4%nat
    /\ map br_Category (budgetComparison amount_zero amount_add df b)
       = ["groceries"; "rent"; "utilities"; "entertainment"]
    /\ map br_Budget (budgetComparison amount_zero amount_add df b)
       = [budget_groceries b; budget_rent b; budget_utilities b;
          budget_entertainment b]
    /\ (forall e,
           e ∈ budgetComparison amount_zero amount_add df b ->
           br_Actual e = actual amount_zero amount_add df (br_Category e)
           /\ br_Category e <> "other"
           /\ ((forall r, r ∈ rows df -> Category r <> Some (br_Category e)) ->
               br_Actual e = amount_zero)).
Proof.
  intros amount amount_zero amount_add df b.
  split; [reflexivity|]. split; [reflexivity|]. split; [reflexivity|].
  intros e He.
  assert (br_Actual e = actual amount_zero amount_add df (br_Category e)
          /\ br_Category e <> "other") as [Hactual Hother].
  { unfold budgetComparison, budget_df, budget_data in He. simpl in He.
    rewrite !elem_of_cons, elem_of_nil in He.
    destruct He as [->|[->|[->|[->|[]]]]]; simpl; split;
      (reflexivity || discriminate). }
  split; [exact Hactual|]. split; [exact Hother|].
  intros Hnone. rewrite Hactual. by apply actual_absent.
Qed.

Lemma budget_comparison_fixed_categories_witness :
  exists e,
    e ∈ budgetComparison 0 Z.add sample_cleaned default_budgets
    /\ br_Category e = "utilities"
    /\ br_Budget e = 150
    /\ br_Actual e = 0.
Proof.
  exists (mk_budget_row "utilities" 150 (actual 0 Z.add sample_cleaned "utilities")).
  assert (mk_budget_row "utilities" 150 (actual 0 Z.add sample_cleaned "utilities")
          ∈ budgetComparison 0 Z.add sample_cleaned default_budgets) as He.
  { apply list_elem_of_In. simpl. tauto. }
  split; [exact He|]. split; [reflexivity|]. split; [reflexivity|].
  apply (proj2 (proj2 (proj2
           (budget_comparison_fixed_categories Z 0 Z.add sample_cleaned
              default_budgets)))
           _ He).
  intros r Hr. split_elem_of Hr; discriminate.
Defined.

(** ** The groups of a groupby *)

Section GroupByFacts.
Context {K R : Type}.
Variable K_eqb K_ltb : K -> K -> bool.
Hypothesis K_eqb_eq : forall a b, K_eqb a b = true <-> a = b.
Hypothesis K_ltb_irrefl : forall a, K_ltb a a = false.
Hypothesis K_ltb_trans :
  forall a b c, K_ltb a b = true -> K_ltb b c = true -> K_ltb a c = true.
Hypothesis K_ltb_total :
  forall a b, K_eqb a b = false -> K_ltb a b = false -> K_ltb b a = true.
Collection order := K_eqb_eq K_ltb_irrefl K_ltb_trans K_ltb_total.

Local Abbreviation before := (fun a b : K => K_ltb a b = true).
Local Abbreviation keys := (fun groups : list (K * list R) => map fst groups).
Local Abbreviation insert_row := (group_insert K_eqb K_ltb).
Local Abbreviation rows_of := (group_of (R:=R) K_eqb).

Lemma K_eqb_refl (a : K) : K_eqb a a = true.
Proof using K_eqb_eq. by apply K_eqb_eq. Qed.

Lemma K_eqb_sym (a b : K) : K_eqb a b = K_eqb b a.
Proof using K_eqb_eq.
  apply eq_true_iff_eq. rewrite !K_eqb_eq. split; congruence.
Qed.

Lemma K_ltb_neq (a b : K) : K_ltb a b = true -> K_eqb a b = false.
Proof using K_eqb_eq K_ltb_irrefl.
  intros Hlt. apply not_true_iff_false. intros Heq.
  apply K_eqb_eq in Heq. subst. rewrite K_ltb_irrefl in Hlt. discriminate.
Qed.

Lemma group_of_below (k : K) (groups : list (K * list R)) :
  Forall (before k) (keys groups) -> rows_of k groups = [].
Proof using K_eqb_eq K_ltb_irrefl.
  induction groups as [|[k' g] groups IH]; simpl; [reflexivity|].
  intros H. apply Forall_cons in H as [Hk Hrest].
  rewrite (K_ltb_neq _ _ Hk). auto.
Qed.

Lemma elem_of_keys_insert (k x : K) (r : R) (groups : list (K * list R)) :
  x ∈ keys (insert_row k r groups) <-> x = k \/ x ∈ keys groups.
Proof using K_eqb_eq.
  induction groups as [|[k' g] groups IH]; simpl.
  - rewrite elem_of_cons, elem_of_nil. tauto.
  - destruct (K_eqb k k') eqn:E.
    + apply K_eqb_eq in E. subst. simpl. rewrite !elem_of_cons. tauto.
    + destruct (K_ltb k k'); simpl.
      * rewrite !elem_of_cons. tauto.
      * rewrite !elem_of_cons, IH. tauto.
Qed.

Lemma group_insert_sorted (k : K) (r : R) (groups : list (K * list R)) :
  StronglySorted before (keys groups) ->
  StronglySorted before (keys (insert_row k r groups)).
Proof using order.
  induction groups as [|[k' g] groups IH]; simpl; intros Hs.
  - repeat constructor.
  - apply StronglySorted_inv in Hs as [Hs Hall]. simpl in *.
    destruct (K_eqb k k') eqn:E; [by constructor|].
    destruct (K_ltb k k') eqn:L; simpl.
    + constructor; [by constructor|]. constructor; [exact L|].
      eapply Forall_impl; [exact Hall|]. intros x Hx. by eapply K_ltb_trans.
    + constructor; [by apply IH|].
      apply Forall_forall. intros x Hx.
      apply elem_of_keys_insert in Hx as [->|Hx].
      * by apply K_ltb_total.
      * rewrite Forall_forall in Hall. by apply Hall.
Qed.

Lemma group_of_insert (k k' : K) (r : R) (groups : list (K * list R)) :
  StronglySorted before (keys groups) ->
  rows_of k' (insert_row k r groups)
  = if K_eqb k' k then rows_of k groups ++ [r] else rows_of k' groups.
Proof using order.
  induction groups as [|[k1 g1] groups IH]; simpl; intros Hs.
  - by destruct (K_eqb k' k).
  - apply StronglySorted_inv in Hs as [Hs Hall]. simpl in *.
    destruct (K_eqb k k1) eqn:E.
    + apply K_eqb_eq in E. subst k1. simpl.
      by destruct (K_eqb k' k).
    + destruct (K_ltb k k1) eqn:L; simpl.
      * destruct (K_eqb k' k) eqn:E'; [|reflexivity].
        rewrite group_of_below; [reflexivity|].
        eapply Forall_impl; [exact Hall|]. intros x Hx. by eapply K_ltb_trans.
      * rewrite (IH Hs).
        destruct (K_eqb k' k1) eqn:E1; [|reflexivity].
        apply K_eqb_eq in E1. subst k1.
        by rewrite K_eqb_sym, E.
Qed.

Lemma group_insert_nonempty (k : K) (r : R) (groups : list (K * list R)) :
  Forall (fun kg => snd kg <> []) groups ->
  Forall (fun kg => snd kg <> []) (insert_row k r groups).
Proof.
  induction groups as [|[k' g] groups IH]; simpl; intros H.
  - by repeat constructor.
  - apply Forall_cons in H as [Hg Hrest].
    destruct (K_eqb k k'); [|destruct (K_ltb k k')].
    + constructor; [|exact Hrest]. simpl. by destruct g.
    + by repeat constructor.
    + constructor; [exact Hg | by apply IH].
Qed.

(** In a sorted list of groups a group is found under its key. *)
Lemma elem_of_groups (k : K) (g : list R) (groups : list (K * list R)) :
  StronglySorted before (keys groups) ->
  (k, g) ∈ groups <-> k ∈ keys groups /\ g = rows_of k groups.
Proof using K_eqb_eq K_ltb_irrefl.
  induction groups as [|[k' g'] groups IH]; simpl; intros Hs.
  - rewrite !elem_of_nil. tauto.
  - apply StronglySorted_inv in Hs as [Hs Hall]. simpl in *.
    rewrite !elem_of_cons, (IH Hs).
    destruct (K_eqb k k') eqn:E.
    + apply K_eqb_eq in E. subst k'. split.
      * intros [[= ->]|[Hin _]]; [by auto|].
        rewrite Forall_forall in Hall.
        apply Hall in Hin.
        by rewrite K_ltb_irrefl in Hin.
      * intros [_ ->]. by left.
    + split.
      * intros [[= -> ->]|[Hin ->]]; [by rewrite K_eqb_refl in E | auto].
      * intros [[->|Hin] ->]; [by rewrite K_eqb_refl in E | auto].
Qed.

Variable key : R -> option K.

Local Abbreviation step :=
  (fun (groups : list (K * list R)) (r : R) =>
     match key r with
     | Some k => insert_row k r groups
     | None => groups
     end).

Lemma groupby_fold (rs : list R) (groups : list (K * list R)) :
  StronglySorted before (keys groups) ->
  Forall (fun kg => snd kg <> []) groups ->
  StronglySorted before (keys (fold_left step rs groups))
  /\ Forall (fun kg => snd kg <> []) (fold_left step rs groups)
  /\ (forall k,
         rows_of k (fold_left step rs groups)
         = rows_of k groups ++ List.filter (key_is K_eqb key k) rs)
  /\ (forall k,
         k ∈ keys (fold_left step rs groups) <->
         k ∈ keys groups \/ exists r, r ∈ rs /\ key r = Some k).
Proof using order.
  revert groups. induction rs as [|r rs IH]; intros groups Hs Hne; simpl.
  - split; [exact Hs|]. split; [exact Hne|]. split.
    + intros k. by rewrite app_nil_r.
    + intros k. split; [by left|]. intros [H|[r [Hr _]]]; [exact H|].
      by apply elem_of_nil in Hr.
  - assert (StronglySorted before (keys (step groups r))) as Hs'.
    { destruct (key r); [by apply group_insert_sorted | exact Hs]. }
    assert (Forall (fun kg => snd kg <> []) (step groups r)) as Hne'.
    { destruct (key r); [by apply group_insert_nonempty | exact Hne]. }
    destruct (IH _ Hs' Hne') as (H1 & H2 & H3 & H4).
    split; [exact H1|]. split; [exact H2|]. split.
    + intros k. rewrite H3. unfold key_is at 2.
      destruct (key r) as [k0|] eqn:Hk; [|reflexivity].
      rewrite group_of_insert by exact Hs. rewrite (K_eqb_sym k k0).
      destruct (K_eqb k0 k) eqn:E; [|reflexivity].
      apply K_eqb_eq in E. subst k0. by rewrite <- app_assoc.
    + intros k. rewrite H4. setoid_rewrite elem_of_cons.
      destruct (key r) as [k0|] eqn:Hk.
      * rewrite elem_of_keys_insert. split.
        -- intros [[->|H]|[x [Hx Hkx]]]; eauto 6.
        -- intros [H|[x [[->|Hx] Hkx]]]; eauto 6.
           left. left. congruence.
      * split.
        -- intros [H|[x [Hx Hkx]]]; eauto 6.
        -- intros [H|[x [[->|Hx] Hkx]]]; eauto 6. congruence.
Qed.

(** The groups of [groupby]: strictly ascending keys, and under each key
    that occurs the rows with that key, in frame order. *)
Lemma groupby_sorted (rs : list R) :
  StronglySorted before (keys (groupby K_eqb K_ltb key rs)).
Proof using order.
  apply (groupby_fold rs []); constructor.
Qed.

Lemma elem_of_groupby (k : K) (g : list R) (rs : list R) :
  (k, g) ∈ groupby K_eqb K_ltb key rs <->
  (exists r, r ∈ rs /\ key r = Some k)
  /\ g = List.filter (key_is K_eqb key k) rs.
Proof using order.
  destruct (groupby_fold rs []) as (Hs & _ & Hrows & Hkeys); [constructor..|].
  unfold groupby. rewrite (elem_of_groups _ _ _ Hs), Hkeys, Hrows. simpl.
  rewrite elem_of_nil. tauto.
Qed.
End GroupByFacts.

(** ** More on the categorizer *)

Lemma str_exists_append (p : ascii -> bool) (s t : string) :
  str_exists p (s +:+ t) = str_exists p s || str_exists p t.
Proof.
  induction s as [|c s IH]; [reflexivity|].
  rewrite append_cons. simpl. by rewrite IH, orb_assoc.
Qed.

Lemma ascii_lower_not_upper (c : ascii) : is_ascii_upper (ascii_lower c) = false.
Proof. by destruct c as [[] [] [] [] [] [] [] []]. Qed.

Lemma str_lower_ascii_no_upper (s : string) :
  str_exists is_ascii_upper (str_lower_ascii s) = false.
Proof.
  induction s as [|c s IH]; [reflexivity|].
  simpl. by rewrite ascii_lower_not_upper, IH.
Qed.

Lemma first_match_app_false (earlier items : list (string * list string))
    (d : string) :
  Forall (fun ck => any_keyword_in (snd ck) d = false) earlier ->
  first_match (earlier ++ items) d = first_match items d.
Proof.
  induction 1 as [|[c kws] earlier Hc _ IH]; simpl in *; [reflexivity|].
  by rewrite Hc.
Qed.

Lemma first_match_explained (items : list (string * list string)) (d : string) :
  (first_match items d = "other"
   /\ Forall (fun ck => any_keyword_in (snd ck) d = false) items)
  \/ exists earlier keywords later,
      items = earlier ++ (first_match items d, keywords) :: later
      /\ any_keyword_in keywords d = true
      /\ Forall (fun ck => any_keyword_in (snd ck) d = false) earlier.
Proof.
  induction items as [|[c kws] items IH]; simpl.
  - left. split; [reflexivity | constructor].
  - destruct (any_keyword_in kws d) eqn:Hc.
    + right. exists [], kws, items. repeat split; [exact Hc | constructor].
    + destruct IH as [[Hother Hall]|(earlier & keywords & later & Heq & Hm & Hall)].
      * left. split; [exact Hother | by constructor].
      * right. exists ((c, kws) :: earlier), keywords, later.
        split; [simpl; congruence|]. split; [exact Hm | by constructor].
Qed.

(** X1. A category matches a description exactly when one of its keywords
    occurs in it as a contiguous substring: the description is some text,
    the keyword, and some text. *)
Theorem keyword_match_is_substring :
  forall (keywords : list string) (description : string),
    any_keyword_in keywords description = true <->
    exists keyword pre post,
      keyword ∈ keywords /\ description = pre +:+ keyword +:+ post.
Proof.
  intros keywords description. rewrite any_keyword_in_true. split.
  - intros (k & Hin & Hk). apply str_in_spec in Hk as (pre & post & Hd). eauto 6.
  - intros (k & pre & post & Hin & Hd). exists k. split; [exact Hin|].
    apply str_in_spec. eauto.
Qed.

(** X2. The result of [categorize] is always explained by the rules: either
    it is "other" and no category has a keyword in the lower-cased
    description, or it is the name of an entry of the rule set that has such
    a keyword while no entry before it has one. *)
Theorem categorize_result_explained :
  forall (lower : string -> string) (categories : list (string * list string))
         (description : string),
    (categorize lower categories description = "other"
     /\ Forall (fun ck => any_keyword_in (snd ck) (lower description) = false)
               categories)
    \/ exists earlier keywords later,
        categories
        = earlier ++ (categorize lower categories description, keywords) :: later
        /\ any_keyword_in keywords (lower description) = true
        /\ Forall (fun ck => any_keyword_in (snd ck) (lower description) = false)
                  earlier.
Proof. intros lower categories description. apply first_match_explained. Qed.

(** X3. The empty string is a substring of every description: a category
    that lists "" among its keywords takes every description that no earlier
    category matches. *)
Theorem empty_keyword_matches_every_description :
  forall (lower : string -> string) (earlier later : list (string * list string))
         (C : string) (keywords : list string) (description : string),
    "" ∈ keywords ->
    Forall (fun ck => any_keyword_in (snd ck) (lower description) = false) earlier ->
    categorize lower (earlier ++ (C, keywords) :: later) description = C.
Proof.
  intros lower earlier later C keywords description Hin Hearlier.
  unfold categorize. rewrite first_match_app_false by exact Hearlier. simpl.
  assert (any_keyword_in keywords (lower description) = true) as ->; [|reflexivity].
  apply any_keyword_in_true. exists "". split; [exact Hin|].
  by destruct (lower description).
Qed.

Lemma empty_keyword_matches_every_description_witness :
  categorize str_lower_ascii [("rent", ["rent"]); ("misc", ["taxi"; ""])] "Cash"
  = "misc".
Proof.
  apply (empty_keyword_matches_every_description str_lower_ascii
           [("rent", ["rent"])] [] "misc" ["taxi"; ""] "Cash").
  - apply list_elem_of_In. simpl. tauto.
  - repeat constructor.
Defined.

(** X4. The description is lower-cased but the keywords are not: when the
    lower-casing leaves no capital letter, a keyword with a capital letter
    is found in no description, and a category all of whose keywords have
    one can be removed from the rule set without changing any result. *)
Theorem uppercase_keyword_never_matches :
  forall (lower : string -> string),
    (forall d, str_exists is_ascii_upper (lower d) = false) ->
    forall (earlier later : list (string * list string)) (C : string)
           (keywords : list string) (description : string),
      Forall (fun k => str_exists is_ascii_upper k = true) keywords ->
      any_keyword_in keywords (lower description) = false
      /\ categorize lower (earlier ++ (C, keywords) :: later) description
         = categorize lower (earlier ++ later) description.
Proof.
  intros lower Hlower earlier later C keywords description Hupper.
  assert (any_keyword_in keywords (lower description) = false) as Hnone.
  { apply any_keyword_in_false. intros k Hk.
    rewrite Forall_forall in Hupper. specialize (Hupper k Hk).
    apply not_true_iff_false. intros Hin.
    apply str_in_spec in Hin as (pre & post & Hd).
    specialize (Hlower description). rewrite Hd in Hlower.
    rewrite !str_exists_append, Hupper in Hlower.
    by destruct (str_exists is_ascii_upper pre). }
  split; [exact Hnone|]. unfold categorize.
  induction earlier as [|[c kws] earlier IH]; simpl.
  - by rewrite Hnone.
  - by rewrite IH.
Qed.

Lemma uppercase_keyword_never_matches_witness :
  categorize str_lower_ascii [("groceries", ["Walmart"]); ("rent", ["rent"])]
             "Walmart trip"
  = "other".
Proof.
  etransitivity.
  - exact (proj2 (uppercase_keyword_never_matches str_lower_ascii
                    str_lower_ascii_no_upper [] [("rent", ["rent"])] "groceries"
                    ["Walmart"] "Walmart trip"
                    ltac:(repeat constructor))).
  - reflexivity.
Defined.

(** ** The order of the keys *)

Lemma string_ltb_irrefl (a : string) : String.ltb a a = false.
Proof.
  unfold String.ltb. pose proof (String.compare_antisym a a) as H.
  destruct (String.compare a a); simpl in H; congruence.
Qed.

Lemma string_ltb_trans (a b c : string) :
  String.ltb a b = true -> String.ltb b c = true -> String.ltb a c = true.
Proof.
  unfold String.ltb. intros Hab Hbc.
  destruct (String.compare a b) eqn:Eab; try discriminate.
  destruct (String.compare b c) eqn:Ebc; try discriminate.
  apply OrderedTypeEx.String_as_OT.cmp_lt in Eab, Ebc.
  pose proof (OrderedTypeEx.String_as_OT.lt_trans _ _ _ Eab Ebc) as Hac.
  apply OrderedTypeEx.String_as_OT.cmp_lt in Hac.
  unfold OrderedTypeEx.String_as_OT.cmp in Hac. by rewrite Hac.
Qed.

Lemma string_ltb_total (a b : string) :
  String.eqb a b = false -> String.ltb a b = false -> String.ltb b a = true.
Proof.
  unfold String.ltb. intros Hne Hlt. rewrite (String.compare_antisym b a).
  destruct (String.compare a b) eqn:E; simpl; try reflexivity; try discriminate.
  apply String.compare_eq_iff in E. apply String.eqb_neq in Hne. contradiction.
Qed.

Lemma Z_ltb_trans (a b c : Z) :
  (a <? b) = true -> (b <? c) = true -> (a <? c) = true.
Proof. rewrite !Z.ltb_lt. apply Z.lt_trans. Qed.

Lemma Z_ltb_total (a b : Z) :
  (a =? b) = false -> (a <? b) = false -> (b <? a) = true.
Proof. rewrite Z.eqb_neq, Z.ltb_ge, Z.ltb_lt. intros Hne Hle. by apply Z.le_neq. Qed.

Lemma StronglySorted_weaken {A : Type} (R1 R2 : A -> A -> Prop) (l : list A) :
  (forall a b, R1 a b -> R2 a b) -> StronglySorted R1 l -> StronglySorted R2 l.
Proof.
  intros Himp. induction 1 as [|a l _ IH Hall]; constructor; [exact IH|].
  eapply Forall_impl; [exact Hall | apply Himp].
Qed.

Lemma StronglySorted_NoDup {A : Type} (R : A -> A -> Prop) (l : list A) :
  (forall a, ~ R a a) -> StronglySorted R l -> NoDup l.
Proof.
  intros Hirr. induction 1 as [|a l _ IH Hall]; [constructor|].
  apply NoDup_cons. split; [|exact IH].
  intros Hin. rewrite Forall_forall in Hall. by apply (Hirr a), Hall.
Qed.


(** ** The summary tables *)

Section SummaryFacts.
Context {amount : Type}.
Variable amount_zero : amount.
Variable amount_add : amount -> amount -> amount.

Local Abbreviation col_sum := (Series_sum amount_zero amount_add).

Lemma keys_groupby_Amount_sum {K : Type} (K_eqb K_ltb : K -> K -> bool)
    (key : row amount -> option K) (df : DataFrame amount) :
  map fst (groupby_Amount_sum amount_zero amount_add K_eqb K_ltb key df)
  = map fst (groupby K_eqb K_ltb key (rows df)).
Proof.
  unfold groupby_Amount_sum. rewrite map_map. apply map_ext. by intros [k g].
Qed.

Lemma elem_of_groupby_Amount_sum {K : Type} (K_eqb K_ltb : K -> K -> bool)
    (key : row amount -> option K) (df : DataFrame amount) (k : K) (v : amount) :
  (forall a b, K_eqb a b = true <-> a = b) ->
  (forall a, K_ltb a a = false) ->
  (forall a b c, K_ltb a b = true -> K_ltb b c = true -> K_ltb a c = true) ->
  (forall a b, K_eqb a b = false -> K_ltb a b = false -> K_ltb b a = true) ->
  (k, v) ∈ groupby_Amount_sum amount_zero amount_add K_eqb K_ltb key df <->
  (exists r, r ∈ rows df /\ key r = Some k)
  /\ v = col_sum (map Amount (List.filter (key_is K_eqb key k) (rows df))).
Proof.
  intros H1 H2 H3 H4. unfold groupby_Amount_sum.
  change (map ?f ?l) with (f <$> l) at 1. rewrite list_elem_of_fmap. split.
  - intros [[k' g] [[= -> ->] Hin]].
    apply (elem_of_groupby K_eqb K_ltb H1 H2 H3 H4) in Hin as [Hr ->]. auto.
  - intros [Hr ->].
    exists (k, List.filter (key_is K_eqb key k) (rows df)). split; [reflexivity|].
    by apply (elem_of_groupby K_eqb K_ltb H1 H2 H3 H4).
Qed.

Lemma elem_of_summary (df : DataFrame amount) (c : string) (v : amount) :
  (c, v) ∈ summary amount_zero amount_add df <->
  (exists r, r ∈ rows df /\ Category r = Some c)
  /\ v = actual amount_zero amount_add df c.
Proof.
  apply elem_of_groupby_Amount_sum.
  - apply String.eqb_eq.
  - apply string_ltb_irrefl.
  - apply string_ltb_trans.
  - apply string_ltb_total.
Qed.

Lemma elem_of_budgetComparison (df : DataFrame amount) (b : budgets)
    (e : budget_row) :
  e ∈ budgetComparison amount_zero amount_add df b ->
  br_Category e ∈ ["groceries"; "rent"; "utilities"; "entertainment"]
  /\ br_Actual e = actual amount_zero amount_add df (br_Category e).
Proof.
  unfold budgetComparison, budget_df, budget_data. simpl.
  rewrite !elem_of_cons, elem_of_nil.
  intros [->|[->|[->|[->|[]]]]]; simpl; split; try reflexivity; tauto.
Qed.
End SummaryFacts.

(** X5. Both summary tables are in strictly ascending key order, category
    names as strings and months chronologically, so no category and no month
    has two entries. *)
Theorem summaries_in_ascending_key_order :
  forall (amount : Type) (amount_zero : amount)
         (amount_add : amount -> amount -> amount) (df : DataFrame amount),
    StronglySorted (fun a b => String.ltb a b = true)
                   (map fst (summary amount_zero amount_add df))
    /\ NoDup (map fst (summary amount_zero amount_add df))
    /\ StronglySorted Z.lt (map fst (monthly_spending amount_zero amount_add df))
    /\ NoDup (map fst (monthly_spending amount_zero amount_add df)).
Proof.
  intros amount amount_zero amount_add df.
  assert (StronglySorted (fun a b => String.ltb a b = true)
            (map fst (summary amount_zero amount_add df))) as Hs.
  { unfold summary. rewrite keys_groupby_Amount_sum.
    apply groupby_sorted.
    - apply String.eqb_eq.
    - apply string_ltb_irrefl.
    - apply string_ltb_trans.
    - apply string_ltb_total. }
  assert (StronglySorted Z.lt
            (map fst (monthly_spending amount_zero amount_add df))) as Hm.
  { unfold monthly_spending. rewrite keys_groupby_Amount_sum.
    apply (StronglySorted_weaken (fun a b => (a <? b) = true)).
    - intros a b. apply Z.ltb_lt.
    - apply groupby_sorted.
      + apply Z.eqb_eq.
      + apply Z.ltb_irrefl.
      + apply Z_ltb_trans.
      + apply Z_ltb_total. }
  split; [exact Hs|]. split.
  - eapply StronglySorted_NoDup; [|exact Hs].
    intros a H. simpl in H. rewrite string_ltb_irrefl in H. discriminate H.
  - split; [exact Hm|].
    eapply StronglySorted_NoDup; [|exact Hm]. apply Z.lt_irrefl.
Qed.

(** X6. The spending summary has an entry for a category exactly when some
    row of the frame has that category, and its amount is the sum of the
    amounts of those rows, the same sum the budget comparison computes. *)
Theorem summary_entries :
  forall (amount : Type) (amount_zero : amount)
         (amount_add : amount -> amount -> amount)
         (df : DataFrame amount) (c : string) (v : amount),
    (c, v) ∈ summary amount_zero amount_add df <->
    (exists r, r ∈ rows df /\ Category r = Some c)
    /\ v = actual amount_zero amount_add df c.
Proof. intros. apply elem_of_summary. Qed.

(** X7. The monthly table has an entry for a month exactly when some row has
    that month, with the sum of the amounts of the rows of that month; a row
    without a month counts in no entry. *)
Theorem monthly_spending_entries :
  forall (amount : Type) (amount_zero : amount)
         (amount_add : amount -> amount -> amount)
         (df : DataFrame amount) (m : Z) (v : amount),
    (m, v) ∈ monthly_spending amount_zero amount_add df <->
    (exists r, r ∈ rows df /\ Month r = Some m)
    /\ v = Series_sum amount_zero amount_add
             (map Amount
                  (List.filter
                     (fun r => match Month r with
                               | Some m' => m' =? m
                               | None => false
                               end)
                     (rows df))).
Proof.
  intros. apply (elem_of_groupby_Amount_sum amount_zero amount_add Z.eqb Z.ltb).
  - apply Z.eqb_eq.
  - apply Z.ltb_irrefl.
  - apply Z_ltb_trans.
  - apply Z_ltb_total.
Qed.

(** X8. The budget comparison agrees with the spending summary: the actual
    amount of a budget row is the amount the summary shows for that
    category, and [amount_zero] when the summary has no entry for it. *)
Theorem budget_actual_agrees_with_summary :
  forall (amount : Type) (amount_zero : amount)
         (amount_add : amount -> amount -> amount)
         (df : DataFrame amount) (b : budgets) (e : budget_row),
    e ∈ budgetComparison amount_zero amount_add df b ->
    (forall v,
        (br_Category e, v) ∈ summary amount_zero amount_add df ->
        br_Actual e = v)
    /\ ((forall v, (br_Category e, v) ∉ summary amount_zero amount_add df) ->
        br_Actual e = amount_zero).
Proof.
  intros amount amount_zero amount_add df b e He.
  apply elem_of_budgetComparison in He as [_ Hactual]. split.
  - intros v Hv. apply elem_of_summary in Hv as [_ ->]. exact Hactual.
  - intros Hnone. rewrite Hactual. apply actual_absent.
    intros r Hr Hc.
    apply (Hnone (actual amount_zero amount_add df (br_Category e))).
    apply elem_of_summary. eauto.
Qed.

Lemma budget_actual_agrees_with_summary_witness :
  br_Actual (mk_budget_row "groceries" 200 54) = 54
  /\ br_Actual (mk_budget_row "utilities" 150 0) = 0.
Proof.
  split.
  - apply (proj1 (budget_actual_agrees_with_summary Z 0 Z.add sample_cleaned
                    default_budgets (mk_budget_row "groceries" 200 54)
                    ltac:(apply list_elem_of_In; simpl; tauto))).
    apply list_elem_of_In. simpl. tauto.
  - apply (proj2 (budget_actual_agrees_with_summary Z 0 Z.add sample_cleaned
                    default_budgets (mk_budget_row "utilities" 150 0)
                    ltac:(apply list_elem_of_In; simpl; tauto))).
    intros v Hv. apply list_elem_of_In in Hv. simpl in Hv.
    destruct Hv as [Hv|[Hv|[]]]; discriminate Hv.
Defined.

(** ** The report as a whole *)

Section ReportFacts.
Context {amount : Type}.
Variable amount_zero : amount.
Variable amount_add : amount -> amount -> amount.
Variable lower : string -> string.
Variable parse_number : string -> option amount.
Variable today : nat -> Z.
Variable to_period_M : Z -> Z.
Variable categories : list (string * list string).
Variable parse_date : list date_cell -> string -> option Z.
Variable timestamp_ok : Z -> bool.

Local Abbreviation total := (sum_amounts amount_zero amount_add).
Local Abbreviation col_sum := (Series_sum amount_zero amount_add).
Local Abbreviation clean :=
  (clean_rows lower parse_number today to_period_M categories parse_date
              timestamp_ok).

Lemma Amount_clean_rows (date_missing : bool) (rs out : list (row amount)) :
  clean date_missing rs = Ok out ->
  map Amount out
  = map (fun r => to_numeric parse_number (Amount r))
        (List.filter (kept parse_number) rs).
Proof.
  intros H. apply clean_rows_Ok_lookup in H as [Hlen Hrows].
  apply list_eq. intros i. rewrite !lookup_map.
  destruct (List.filter (kept parse_number) rs !! i) as [r|] eqn:Hi.
  - by destruct (Hrows i r Hi) as (category & c & _ & -> & _).
  - apply lookup_ge_None in Hi. rewrite <- Hlen in Hi.
    apply lookup_ge_None in Hi. by rewrite Hi.
Qed.

Lemma cleaned_Category (df out : DataFrame amount) (r : row amount) :
  validate_and_clean lower parse_number today to_period_M categories parse_date
                     timestamp_ok df = Ok out ->
  r ∈ rows out ->
  exists c, Category r = Some c /\ c ∈ map fst categories ++ ["other"].
Proof.
  intros Hok Hr. apply validate_and_clean_inv in Hok as (_ & _ & rs & Hrs & ->).
  simpl in Hr. apply clean_rows_cleaned in Hrs as Hall.
  rewrite Forall_forall in Hall.
  destruct (Hall r Hr) as [[_ (c & Hcell & Hc)] _].
  exists c. split; [exact Hc|]. by apply categorize_cell_range in Hcell.
Qed.

Hypothesis add_comm : forall a b, amount_add a b = amount_add b a.
Hypothesis add_assoc :
  forall a b c, amount_add a (amount_add b c) = amount_add (amount_add a b) c.
Hypothesis add_zero_l : forall a, amount_add amount_zero a = a.
Collection laws := add_comm add_assoc add_zero_l.

Lemma total_spent_all (df : DataFrame amount) :
  Forall (fun r => is_Some (Category r)) (rows df) ->
  total_spent amount_zero amount_add df = col_sum (map Amount (rows df)).
Proof using laws.
  intros Hall. unfold total_spent, summary.
  rewrite groupby_Amount_sum_total by assumption.
  rewrite filter_all; [reflexivity|].
  eapply Forall_impl; [exact Hall|].
  intros r [c Hc]. unfold has_key. by rewrite Hc.
Qed.

Lemma sum_amounts_zeros {A : Type} (l : list A) :
  total (map (fun _ => amount_zero) l) = amount_zero.
Proof using laws.
  induction l as [|x l IH]; [reflexivity|].
  cbn [map]. rewrite sum_amounts_cons by assumption. by rewrite IH, add_zero_l.
Qed.

(** Adding [v] to the term of one name of a list without repetition adds
    [v] to the sum. *)
Lemma sum_amounts_bump (T : string -> amount) (v : amount) (c0 : string)
    (cs : list string) :
  NoDup cs -> c0 ∈ cs ->
  total (map (fun c => if String.eqb c0 c then amount_add v (T c) else T c) cs)
  = amount_add v (total (map T cs)).
Proof using laws.
  induction 1 as [|c1 cs Hnotin Hnd IH]; intros Hin.
  - by apply elem_of_nil in Hin.
  - cbn [map]. rewrite !sum_amounts_cons by assumption.
    destruct (String.eqb_spec c0 c1) as [->|Hne].
    + rewrite <- add_assoc. do 3 f_equal. apply map_ext_in.
      intros c Hc. destruct (String.eqb_spec c1 c) as [->|_]; [|reflexivity].
      by apply list_elem_of_In in Hc.
    + apply elem_of_cons in Hin as [Hin|Hin]; [contradiction|].
      rewrite (IH Hin), !add_assoc. f_equal. apply add_comm.
Qed.

(** The amounts of a frame, split by category. *)
Lemma Series_sum_by_category (cs : list string) (rs : list (row amount)) :
  NoDup cs ->
  Forall (fun r => exists c, c ∈ cs /\ Category r = Some c) rs ->
  col_sum (map Amount rs)
  = total (map (fun c =>
                  col_sum (map Amount
                             (List.filter (key_is String.eqb Category c) rs)))
               cs).
Proof using laws.
  intros Hnd. induction 1 as [|r rs (c0 & Hin & Hc) _ IH].
  - cbn [map List.filter]. by rewrite sum_amounts_zeros.
  - cbn [map]. rewrite Series_sum_cons by assumption. rewrite IH.
    rewrite <- (sum_amounts_bump
                  (fun c =>
                     col_sum (map Amount
                                (List.filter (key_is String.eqb Category c) rs)))
                  (col_sum [Amount r]) c0 cs Hnd Hin).
    f_equal. apply map_ext. intros c. cbn [List.filter].
    assert (key_is String.eqb Category c r = String.eqb c0 c) as ->.
    { unfold key_is. by rewrite Hc. }
    destruct (String.eqb c0 c); [|reflexivity].
    cbn [map]. symmetry. by apply Series_sum_cons.
Qed.
End ReportFacts.

Lemma process_tips_inv {amount : Type} (amount_zero : amount)
    (amount_add : amount -> amount -> amount)
    (lower : string -> string) (parse_number : string -> option amount)
    (today : nat -> Z) (to_period_M : Z -> Z)
    (categories : list (string * list string))
    (parse_date : list date_cell -> string -> option Z)
    (timestamp_ok : Z -> bool) (draw : charts)
    (df : DataFrame amount) (b : budgets) (r : report) :
  process amount_zero amount_add lower parse_number today to_period_M categories
          parse_date timestamp_ok draw df b = Results r ->
  shown_tips r
  = map (fun cv => (fst cv, saving_tips (fst cv))) (shown_summary r).
Proof.
  unfold process.
  destruct (validate_and_clean lower parse_number today to_period_M categories
              parse_date timestamp_ok df)
    as [out|[]|x]; [|discriminate..].
  destruct (barplot draw _); [discriminate|].
  destruct (pie draw _); [discriminate|].
  destruct (trend_plot draw _); [discriminate|].
  destruct (budget_bars draw _); [discriminate|].
  intros [= <-]. simpl. apply map_ext. by intros [c v].
Qed.

Lemma with_column_prefix (label : string) (labels : list string) :
  labels `prefix_of` with_column label labels.
Proof.
  unfold with_column. destruct (existsb (String.eqb label) labels).
  - reflexivity.
  - by apply prefix_app_r.
Qed.

Lemma with_column_NoDup (label : string) (labels : list string) :
  NoDup labels -> NoDup (with_column label labels).
Proof.
  intros Hnd. unfold with_column.
  destruct (existsb (String.eqb label) labels) eqn:E; [exact Hnd|].
  apply NoDup_app. split; [exact Hnd|]. split; [|apply NoDup_singleton].
  intros x Hx Hx'. apply list_elem_of_singleton in Hx'. subst x.
  apply existsb_eqb_elem_of in Hx. congruence.
Qed.

(** X9. The spending summary lists only names of the rule set and "other". *)
Theorem summary_categories_in_rule_set :
  forall (amount : Type) (amount_zero : amount)
         (amount_add : amount -> amount -> amount)
         (lower : string -> string) (parse_number : string -> option amount)
         (today : nat -> Z) (to_period_M : Z -> Z)
         (categories : list (string * list string))
         (parse_date : list date_cell -> string -> option Z)
         (timestamp_ok : Z -> bool) (draw : charts)
         (df : DataFrame amount) (b : budgets) (r : report),
    process amount_zero amount_add lower parse_number today to_period_M
            categories parse_date timestamp_ok draw df b = Results r ->
    Forall (fun cv => fst cv ∈ map fst categories ++ ["other"]) (shown_summary r).
Proof.
  intros amount amount_zero amount_add lower parse_number today to_period_M
         categories parse_date timestamp_ok draw df b r Hr.
  apply process_results_inv in Hr as (out & Hout & _ & -> & _).
  apply Forall_forall. intros [c v] Hcv.
  apply elem_of_summary in Hcv as [(x & Hx & Hc) _].
  destruct (cleaned_Category _ _ _ _ _ _ _ _ _ _ Hout Hx) as (c' & Hc' & Hin).
  simpl. congruence.
Qed.

Lemma summary_categories_in_rule_set_witness :
  exists r,
    process_Z sample_upload default_budgets = Results r
    /\ Forall (fun cv => fst cv ∈ map fst default_categories ++ ["other"])
              (shown_summary r).
Proof.
  eexists. split; [reflexivity|].
  exact (summary_categories_in_rule_set Z 0 Z.add str_lower_ascii parse_int
           sample_today month_of_day default_categories parse_iso_date
           nanosecond_timestamp sample_charts sample_upload
           default_budgets _ eq_refl).
Defined.

(** X10. With the built-in rules every category of the summary has its own
    text in the tips table: the page shows one tip per summary entry and
    never the default text "No tips available.". *)
Theorem default_rules_tips_are_bespoke :
  forall (amount : Type) (amount_zero : amount)
         (amount_add : amount -> amount -> amount)
         (lower : string -> string) (parse_number : string -> option amount)
         (today : nat -> Z) (to_period_M : Z -> Z)
         (parse_date : list date_cell -> string -> option Z)
         (timestamp_ok : Z -> bool) (draw : charts)
         (df : DataFrame amount) (b : budgets) (r : report),
    process amount_zero amount_add lower parse_number today to_period_M
            (load_categories None) parse_date timestamp_ok draw df b
    = Results r ->
    map fst (shown_tips r) = map fst (shown_summary r)
    /\ Forall (fun ct => snd ct = saving_tips (fst ct)
                         /\ snd ct <> "No tips available.")
              (shown_tips r).
Proof.
  intros amount amount_zero amount_add lower parse_number today to_period_M
         parse_date timestamp_ok draw df b r Hr.
  pose proof (process_tips_inv _ _ _ _ _ _ _ _ _ _ _ _ _ Hr) as Htips.
  rewrite Htips. split.
  - rewrite map_map. by apply map_ext.
  - apply process_results_inv in Hr as (out & Hout & _ & -> & _).
    apply Forall_map_iff, Forall_forall. intros [c v] Hcv. simpl.
    split; [reflexivity|].
    apply elem_of_summary in Hcv as [(x & Hx & Hc) _].
    destruct (cleaned_Category _ _ _ _ _ _ _ _ _ _ Hout Hx) as (c' & Hc' & Hin).
    assert (c' = c) as -> by congruence.
    simpl in Hin. rewrite !elem_of_cons, elem_of_nil in Hin.
    destruct Hin as [->|[->|[->|[->|[->|[->|[]]]]]]]; vm_compute; discriminate.
Qed.

Lemma default_rules_tips_are_bespoke_witness :
  exists r,
    process_Z sample_upload default_budgets = Results r
    /\ map fst (shown_tips r) = ["entertainment"; "groceries"]
    /\ Forall (fun ct => snd ct <> "No tips available.") (shown_tips r).
Proof.
  eexists. split; [reflexivity|].
  destruct (default_rules_tips_are_bespoke Z 0 Z.add str_lower_ascii parse_int
              sample_today month_of_day parse_iso_date nanosecond_timestamp
              sample_charts sample_upload default_budgets _ eq_refl)
    as [Hfst Hall].
  split; [exact Hfst|].
  eapply Forall_impl; [exact Hall|]. by intros ct [_ H].
Defined.

(** X11. With the built-in rules and an exact addition of amounts, the total
    is accounted for by the budget comparison and the "other" category: it
    equals the sum of the four actual amounts plus the amount of "other". *)
Theorem total_is_budget_actuals_plus_other :
  forall (amount : Type) (amount_zero : amount)
         (amount_add : amount -> amount -> amount),
    (forall a b, amount_add a b = amount_add b a) ->
    (forall a b c, amount_add a (amount_add b c) = amount_add (amount_add a b) c) ->
    (forall a, amount_add amount_zero a = a) ->
    forall (lower : string -> string) (parse_number : string -> option amount)
           (today : nat -> Z) (to_period_M : Z -> Z)
           (parse_date : list date_cell -> string -> option Z)
           (timestamp_ok : Z -> bool) (draw : charts)
           (df : DataFrame amount) (b : budgets) (r : report),
      process amount_zero amount_add lower parse_number today to_period_M
              (load_categories None) parse_date timestamp_ok draw df b
      = Results r ->
      shown_total r
      = amount_add
          (sum_amounts amount_zero amount_add (map br_Actual (shown_budget r)))
          (actual amount_zero amount_add (shown_df r) "other").
Proof.
  intros amount amount_zero amount_add Hcomm Hassoc Hzero
         lower parse_number today to_period_M parse_date timestamp_ok draw
         df b r Hr.
  apply process_results_inv in Hr as (out & Hout & -> & _ & _ & -> & ->).
  assert (Forall (fun x => exists c,
                      c ∈ ["groceries"; "rent"; "utilities"; "entertainment";
                           "other"]
                      /\ Category x = Some c) (rows out)) as Hcat.
  { apply Forall_forall. intros x Hx.
    destruct (cleaned_Category _ _ _ _ _ _ _ _ _ _ Hout Hx) as (c & Hc & Hin).
    exists c. split; [|exact Hc]. simpl in Hin.
    rewrite !elem_of_cons, elem_of_nil in Hin. rewrite !elem_of_cons.
    tauto. }
  assert (Forall (fun x => is_Some (Category x)) (rows out)) as Hsome.
  { eapply Forall_impl; [exact Hcat|]. intros x (c & _ & Hc). by rewrite Hc. }
  rewrite (total_spent_all amount_zero amount_add Hcomm Hassoc Hzero out Hsome).
  rewrite (Series_sum_by_category amount_zero amount_add Hcomm Hassoc Hzero
             ["groceries"; "rent"; "utilities"; "entertainment"; "other"]
             (rows out)); [|by compute_done|exact Hcat].
  change ["groceries"; "rent"; "utilities"; "entertainment"; "other"]
    with (["groceries"; "rent"; "utilities"; "entertainment"] ++ ["other"]).
  rewrite map_app, sum_amounts_app by assumption.
  f_equal. cbn [map]. rewrite sum_amounts_cons by assumption.
  change (sum_amounts amount_zero amount_add []) with amount_zero.
  by rewrite Hcomm, Hzero.
Qed.

Lemma total_is_budget_actuals_plus_other_witness :
  exists r,
    process_Z sample_upload default_budgets = Results r
    /\ shown_total r
       = sum_amounts 0 Z.add (map br_Actual (shown_budget r))
         + actual 0 Z.add (shown_df r) "other".
Proof.
  eexists. split; [reflexivity|].
  exact (total_is_budget_actuals_plus_other Z 0 Z.add Z.add_comm Z.add_assoc
           Z.add_0_l str_lower_ascii parse_int sample_today month_of_day
           parse_iso_date nanosecond_timestamp sample_charts
           sample_upload default_budgets _ eq_refl).
Defined.

(** X12. The cleaned frame keeps the uploaded columns in their order and
    puts after them those of Category, Date and Month that the upload did
    not have; no label is repeated unless the upload repeated one. *)
Theorem cleaned_columns :
  forall (amount : Type)
         (lower : string -> string) (parse_number : string -> option amount)
         (today : nat -> Z) (to_period_M : Z -> Z)
         (categories : list (string * list string))
         (parse_date : list date_cell -> string -> option Z)
         (timestamp_ok : Z -> bool)
         (df out : DataFrame amount),
    validate_and_clean lower parse_number today to_period_M categories
                       parse_date timestamp_ok df
    = Ok out ->
    columns df `prefix_of` columns out
    /\ (forall x,
           x ∈ columns out <->
           x ∈ columns df \/ x = "Category" \/ x = "Date" \/ x = "Month")
    /\ (NoDup (columns df) -> NoDup (columns out)).
Proof.
  intros amount lower parse_number today to_period_M categories parse_date
         timestamp_ok df out Hok.
  apply validate_and_clean_inv in Hok as (_ & _ & rs & _ & ->). simpl.
  split; [|split].
  - unfold clean_columns.
    etransitivity; [apply (with_column_prefix "Category")|].
    etransitivity; [apply (with_column_prefix "Date")|].
    apply with_column_prefix.
  - intros x. apply elem_of_clean_columns.
  - intros Hnd. unfold clean_columns. by do 3 apply with_column_NoDup.
Qed.

Lemma cleaned_columns_witness :
  exists out,
    clean_Z upload_missing_date = Ok out
    /\ columns upload_missing_date `prefix_of` columns out
    /\ NoDup (columns out).
Proof.
  eexists. split; [reflexivity|].
  destruct (cleaned_columns Z str_lower_ascii parse_int sample_today month_of_day
              default_categories parse_iso_date nanosecond_timestamp
              upload_missing_date _ eq_refl)
    as (Hprefix & _ & Hnd).
  split; [exact Hprefix|]. apply Hnd. simpl.
  repeat (apply NoDup_cons; split;
    [rewrite ?elem_of_cons, elem_of_nil; intros H;
     repeat (destruct H as [H|H]; [discriminate H|]); exact H|]).
  apply NoDup_nil_2.
Defined.

(** ** Uploads with the same cells *)

Lemma result_rel_bind {A A' B B' : Type} (R : A -> A' -> Prop)
    (S : B -> B' -> Prop) (m : result A) (m' : result A')
    (k : A -> result B) (k' : A' -> result B') :
  result_rel R m m' ->
  (forall a a', R a a' -> result_rel S (k a) (k' a')) ->
  result_rel S (bind m k) (bind m' k').
Proof.
  destruct m as [a| |], m' as [a'| |]; simpl; try done.
  intros H Hk. by apply Hk.
Qed.

Lemma itraverse_from_rel {A A' B B' : Type} (R : A -> A' -> Prop)
    (S : B -> B' -> Prop) (f : nat -> A -> result B) (f' : nat -> A' -> result B')
    (i : nat) (l : list A) (l' : list A') :
  Forall2 R l l' ->
  (forall j a a', R a a' -> result_rel S (f j a) (f' j a')) ->
  result_rel (Forall2 S) (itraverse_from f i l) (itraverse_from f' i l').
Proof.
  intros Hl Hf. revert i. induction Hl as [|a a' l l' Ha _ IH]; intros i; simpl.
  - constructor.
  - eapply result_rel_bind; [by apply Hf|]. intros b b' Hb.
    eapply result_rel_bind; [apply IH|]. intros bs bs' Hbs. simpl.
    by constructor.
Qed.

Lemma result_rel_eq {A : Type} (x y : result A) : result_rel eq x y -> x = y.
Proof. destruct x, y; simpl; congruence || done. Qed.

Lemma Forall2_filter_rel {A : Type} (R : A -> A -> Prop) (p : A -> bool)
    (l l' : list A) :
  Forall2 R l l' ->
  (forall a a', R a a' -> p a = p a') ->
  Forall2 R (List.filter p l) (List.filter p l').
Proof.
  intros Hl Hp. induction Hl as [|a a' l l' Ha _ IH]; simpl; [constructor|].
  rewrite <- (Hp a a' Ha). destruct (p a); [by constructor | exact IH].
Qed.

Section SameUpload.
Context {amount : Type}.
Variable lower : string -> string.
Variable parse_number : string -> option amount.
Variable today : nat -> Z.
Variable to_period_M : Z -> Z.
Variable categories : list (string * list string).
Variable parse_date : list date_cell -> string -> option Z.
Variable timestamp_ok : Z -> bool.

Local Abbreviation same_so_far :=
  (fun r r' : row amount => same_upload r r' /\ Category r = Category r').

Lemma same_upload_kept (r r' : row amount) :
  same_upload r r' -> kept parse_number r = kept parse_number r'.
Proof. intros (Hd & Ha & _). unfold kept. by rewrite Hd, Ha. Qed.

Lemma same_so_far_Date_cell (l l' : list (row amount)) :
  Forall2 same_so_far l l' -> map Date_cell l = map Date_cell l'.
Proof.
  induction 1 as [|r r' l l' [(_ & _ & Hdt & _) _] _ IH]; simpl; congruence.
Qed.

(** The cleaning reads the description, the amount and the date of a row and
    carries its other cells along; what was uploaded as its category and its
    month is overwritten. *)
Lemma clean_rows_same_upload (date_missing : bool) (rs rs' : list (row amount)) :
  Forall2 same_upload rs rs' ->
  clean_rows lower parse_number today to_period_M categories parse_date
             timestamp_ok date_missing rs
  = clean_rows lower parse_number today to_period_M categories parse_date
               timestamp_ok date_missing rs'.
Proof.
  intros Hrs. apply result_rel_eq. unfold clean_rows.
  eapply (result_rel_bind (Forall2 same_so_far)).
  { unfold traverse, itraverse.
    apply itraverse_from_rel with (R := same_upload).
    - unfold numeric_rows. apply Forall2_fmap.
      eapply Forall2_impl.
      + apply Forall2_filter_rel; [exact Hrs | apply same_upload_kept].
      + intros r r' (Hd & Ha & Hdt & Ho). unfold same_upload. simpl.
        by rewrite Ha.
    - intros _ r r' (Hd & Ha & Hdt & Ho). rewrite Hd.
      destruct (categorize_cell lower categories (Description r'));
        simpl; [|done..].
      unfold same_upload. simpl. auto. }
  intros l2 l2' H2. eapply (result_rel_bind (Forall2 same_so_far)).
  { destruct date_missing; simpl; [|exact H2].
    unfold itraverse. apply itraverse_from_rel with (R := same_so_far);
      [exact H2|].
    intros j r r' [(Hd & Ha & Hdt & Ho) Hc].
    destruct (minus_days (today j) j); simpl; [|done..].
    unfold same_upload. simpl. auto. }
  intros l3 l3' H3. pose proof (same_so_far_Date_cell _ _ H3) as Hcol.
  eapply (result_rel_bind (Forall2 same_so_far)).
  { rewrite Hcol. unfold traverse, itraverse.
    apply itraverse_from_rel with (R := same_so_far); [exact H3|].
    intros _ r r' [(Hd & Ha & Hdt & Ho) Hc]. rewrite Hdt.
    destruct (to_datetime parse_date timestamp_ok (map Date_cell l3')
                (Date_cell r')); simpl; [|done..].
    unfold same_upload. simpl. auto. }
  intros l4 l4' H4. simpl.
  induction H4 as [|r r' l l' [(Hd & Ha & Hdt & Ho) Hc] _ IH];
    simpl; [reflexivity|].
  f_equal; [|exact IH]. unfold set_Month, Date. congruence.
Qed.
End SameUpload.

(** X13. Category and Month cells of the upload are not read: two uploads
    with the same labels whose rows agree on the description, the amount,
    the date and every other uploaded cell have the same outcome of the
    cleaning, the same frame or the same exception. *)
Theorem uploaded_category_and_month_ignored :
  forall (amount : Type)
         (lower : string -> string) (parse_number : string -> option amount)
         (today : nat -> Z) (to_period_M : Z -> Z)
         (categories : list (string * list string))
         (parse_date : list date_cell -> string -> option Z)
         (timestamp_ok : Z -> bool)
         (df df' : DataFrame amount),
    columns df = columns df' ->
    Forall2 (fun r r' => Description r = Description r'
                         /\ Amount r = Amount r'
                         /\ Date_cell r = Date_cell r'
                         /\ Others r = Others r')
            (rows df) (rows df') ->
    validate_and_clean lower parse_number today to_period_M categories
                       parse_date timestamp_ok df
    = validate_and_clean lower parse_number today to_period_M categories
                         parse_date timestamp_ok df'.
Proof.
  intros amount lower parse_number today to_period_M categories parse_date
         timestamp_ok df df' Hcols Hrows.
  rewrite !validate_and_clean_eq. unfold has_column. rewrite <- Hcols.
  by rewrite (clean_rows_same_upload lower parse_number today to_period_M
                categories parse_date timestamp_ok _ (rows df) (rows df') Hrows).
Qed.

Lemma uploaded_category_and_month_ignored_witness :
  clean_Z (mk_df ["Description"; "Amount"; "Category"; "Shop"]
             [ Build_row (DText "Netflix") (AStr "16") (Some "rent") DateNaT
                         (Some 1) [("Shop", Some "online")] ])
  = clean_Z (mk_df ["Description"; "Amount"; "Category"; "Shop"]
               [ Build_row (DText "Netflix") (AStr "16") None DateNaT None
                           [("Shop", Some "online")] ]).
Proof.
  apply uploaded_category_and_month_ignored.
  - reflexivity.
  - repeat constructor.
Defined.





(** X16. With an exact addition of amounts the total is the sum, over the
    upload rows that survive the cleaning, of their amounts as numbers: a
    dropped row adds nothing to it. *)
Theorem total_counts_kept_rows_only :
  forall (amount : Type) (amount_zero : amount)
         (amount_add : amount -> amount -> amount),
    (forall a b, amount_add a b = amount_add b a) ->
    (forall a b c, amount_add a (amount_add b c) = amount_add (amount_add a b) c) ->
    (forall a, amount_add amount_zero a = a) ->
    forall (lower : string -> string) (parse_number : string -> option amount)
           (today : nat -> Z) (to_period_M : Z -> Z)
           (categories : list (string * list string))
           (parse_date : list date_cell -> string -> option Z)
           (timestamp_ok : Z -> bool) (draw : charts)
           (df : DataFrame amount) (b : budgets) (r : report),
      process amount_zero amount_add lower parse_number today to_period_M
              categories parse_date timestamp_ok draw df b = Results r ->
      shown_total r
      = Series_sum amount_zero amount_add
          (map (fun x => to_numeric parse_number (Amount x))
               (List.filter (kept parse_number) (rows df))).
Proof.
  intros amount amount_zero amount_add Hcomm Hassoc Hzero
         lower parse_number today to_period_M categories parse_date
         timestamp_ok draw df b r Hr.
  apply process_results_inv in Hr as (out & Hout & _ & _ & _ & _ & ->).
  rewrite total_spent_all; try assumption.
  - apply validate_and_clean_inv in Hout as (_ & _ & rs & Hrs & ->). simpl.
    by rewrite (Amount_clean_rows _ _ _ _ _ _ _ _ _ _ Hrs).
  - apply Forall_forall. intros x Hx.
    destruct (cleaned_Category _ _ _ _ _ _ _ _ _ _ Hout Hx) as (c & Hc & _).
    by rewrite Hc.
Qed.

Lemma total_counts_kept_rows_only_witness :
  exists r,
    process_Z sample_upload default_budgets = Results r /\ shown_total r = 70.
Proof.
  eexists. split; [reflexivity|].
  exact (total_counts_kept_rows_only Z 0 Z.add Z.add_comm Z.add_assoc Z.add_0_l
           str_lower_ascii parse_int sample_today month_of_day
           default_categories parse_iso_date nanosecond_timestamp sample_charts
           sample_upload default_budgets _ eq_refl).
Defined.
(** ** The exceptions of the cleaning *)







(** ** The error message *)

(** X20. The page is the error message exactly when a required column is
    missing from the upload, and the message is then the one of the column
    check: no later step of the pass ends in it. *)
Theorem error_message_only_for_missing_column :
  forall (amount : Type) (amount_zero : amount)
         (amount_add : amount -> amount -> amount)
         (lower : string -> string) (parse_number : string -> option amount)
         (today : nat -> Z) (to_period_M : Z -> Z)
         (categories : list (string * list string))
         (parse_date : list date_cell -> string -> option Z)
         (timestamp_ok : Z -> bool) (draw : charts)
         (df : DataFrame amount) (b : budgets) (msg : string),
    process amount_zero amount_add lower parse_number today to_period_M
            categories parse_date timestamp_ok draw df b
    = ErrorMessage msg
    <->
    ("Description" ∉ columns df \/ "Amount" ∉ columns df)
    /\ msg = "CSV must contain 'Description' and 'Amount' columns.".
Proof.
  intros amount amount_zero amount_add lower parse_number today to_period_M
         categories parse_date timestamp_ok draw df b msg.
  split.
  - unfold process.
    destruct (validate_and_clean lower parse_number today to_period_M
                categories parse_date timestamp_ok df)
      as [out|[]|x] eqn:E; [|intros [= <-]|discriminate].
    + destruct (barplot draw _); [discriminate|].
      destruct (pie draw _); [discriminate|].
      destruct (trend_plot draw _); [discriminate|].
      destruct (budget_bars draw _); discriminate.
    + split; [|reflexivity]. rewrite validate_and_clean_eq in E.
      rewrite <- !has_column_not_elem_of.
      destruct (has_column "Description" df); [|by left].
      destruct (has_column "Amount" df); [|by right].
      cbn [negb orb] in E.
      pose proof (clean_rows_outcome lower parse_number today to_period_M
                    categories parse_date timestamp_ok
                    (negb (has_column "Date" df)) (rows df)) as Hout.
      destruct (clean_rows lower parse_number today to_period_M categories
                  parse_date timestamp_ok (negb (has_column "Date" df))
                  (rows df)); [discriminate E | destruct Hout | discriminate E].
  - intros [Hmissing ->]. unfold process.
    by rewrite (validate_and_clean_err lower parse_number today to_period_M
                  categories parse_date timestamp_ok df Hmissing).
Qed.

Lemma error_message_only_for_missing_column_witness :
  "Description" ∉ columns upload_no_amount \/ "Amount" ∉ columns upload_no_amount.
Proof.
  apply (proj1 (error_message_only_for_missing_column Z 0 Z.add str_lower_ascii
                  parse_int sample_today month_of_day default_categories
                  parse_iso_date nanosecond_timestamp sample_charts
                  upload_no_amount default_budgets
                  "CSV must contain 'Description' and 'Amount' columns.")).
  reflexivity.
Defined.

